(** * Property-HK: the price / coordinate / district pipeline of [district.py]

    A shallow embedding of [src/district.py] and the properties of its
    caching, joining and formatting steps.

    Data frames are lists of typed rows (order and duplicate index labels
    are kept, as pandas keeps them).  An empty frame handed to
    [combine_and_format_data] is taken to still carry its columns; the
    empty frame that [get_prices] gives has none, which [main] meets at
    line 114.  Python exceptions are values of [exception]; the two remote
    services (the web site and the geocoder) and the two parsers wrapped
    around them are variables of the section [Pipeline]; every remote call
    is appended to the [network] log of the [world] and every file written
    to its [outputs] log.

    A character of a string stands for the Unicode code point of the same
    number, so the strings of the model are the Python strings over
    U+0000..U+00FF.

    The table in a file of the [world] is the table as [read_json] loads
    it, after the type inference of pandas; a file that the run has
    written holds the table written.  [main] reads no file after writing
    it, and no property below reads one back. *)

From Stdlib Require Import List String Ascii ZArith Bool Lia Floats.
From Stdlib Require Import DecimalString DecimalPos.
Import ListNotations.

Local Open Scope string_scope.
Local Open Scope Z_scope.
Local Open Scope list_scope.

(* ------------------------------------------------------------------ *)
(** ** Exceptions and fallible computations *)

Inductive exception : Type :=
| FileNotFoundError
| KeyError
| ValueError
| TypeError
| AttributeError
| OverflowError.

Inductive result (A : Type) : Type :=
| Ok (a : A)
| Raise (e : exception).

Arguments Ok {A} a.
Arguments Raise {A} e.

Definition raises {A : Type} (r : result A) : Prop :=
  exists e, r = Raise e.

Definition bind {A B : Type} (r : result A) (k : A -> result B) : result B :=
  match r with
  | Ok a => k a
  | Raise e => Raise e
  end.

Declare Scope result_scope.
Delimit Scope result_scope with result.
Notation "x <- r ;; k" := (bind r (fun x => k))
  (at level 61, r at next level, right associativity) : result_scope.

(** [mapM f l]: apply a fallible [f] to the elements in order; the first
    exception aborts the whole traversal. *)
Fixpoint mapM {A B : Type} (f : A -> result B) (l : list A) : result (list B) :=
  match l with
  | [] => Ok []
  | x :: l' =>
      (y <- f x ;;
       ys <- mapM f l' ;;
       Ok (y :: ys))%result
  end.

(** The value of a computation that is known not to raise. *)
Definition force {A : Type} (d : A) (r : result A) : A :=
  match r with
  | Ok a => a
  | Raise _ => d
  end.

(* ------------------------------------------------------------------ *)
(** ** Python primitives used by the formatter *)

Module Python.

(** [str.split(',')]: the fields between the separators; the empty
    string has one (empty) field. *)
Fixpoint split (sep : ascii) (s : string) : list string :=
  match s with
  | EmptyString => [EmptyString]
  | String c s' =>
      if Ascii.eqb c sep then EmptyString :: split sep s'
      else match split sep s' with
           | h :: t => String c h :: t
           | [] => [String c EmptyString]
           end
  end.

(** The characters that [int] strips as white space: the ASCII ones
    (tab to carriage return, and the space) and, of the code points above
    U+007E, those that are Unicode white space, which below U+0100 are
    U+0085 and U+00A0.  The separators U+001C..U+001F are not stripped. *)
Definition is_space (c : ascii) : bool :=
  let n := nat_of_ascii c in
  (Nat.eqb n 32 || (Nat.leb 9 n && Nat.leb n 13)
   || Nat.eqb n 133 || Nat.eqb n 160)%bool.

Definition is_digit (c : ascii) : bool :=
  let n := nat_of_ascii c in
  (Nat.leb 48 n && Nat.leb n 57)%bool.

Definition digit_value (c : ascii) : Z :=
  Z.of_nat (nat_of_ascii c) - 48.

Fixpoint lstrip (s : string) : string :=
  match s with
  | EmptyString => EmptyString
  | String c s' => if is_space c then lstrip s' else s
  end.

Fixpoint rstrip (s : string) : string :=
  match s with
  | EmptyString => EmptyString
  | String c s' =>
      match rstrip s' with
      | EmptyString => if is_space c then EmptyString else String c EmptyString
      | r => String c r
      end
  end.

Definition strip (s : string) : string := rstrip (lstrip s).

(** Decimal digits with single underscores allowed between two digits. *)
Fixpoint digits (s : string) (acc : Z) (after_digit : bool) : option Z :=
  match s with
  | EmptyString => if after_digit then Some acc else None
  | String c s' =>
      if is_digit c then digits s' (10 * acc + digit_value c) true
      else if Ascii.eqb c "_"%char
           then (if after_digit then digits s' acc false else None)
           else None
  end.

(** [int(s)] on a string: surrounding white space, an optional sign, then
    decimal digits; the result is a Python integer, without bound.  (Below
    U+0100 the only decimal digits are the ASCII ones.)  The limit that
    recent interpreters put on the number of digits (4300 unless set
    otherwise, and never below 640) is left out: a numeral with more
    digits than the limit is refused whatever its value. *)
Definition int_of_str (s : string) : option Z :=
  match strip s with
  | String "-"%char s' => option_map Z.opp (digits s' 0 false)
  | String "+"%char s' => digits s' 0 false
  | s' => digits s' 0 false
  end.

(** [int(x)] on a float: truncation toward zero, without bound; [nan]
    and the infinities have no integer value. *)
Definition int_of_float (f : float) : option Z :=
  match Prim2SF f with
  | S754_zero _ => Some 0
  | S754_finite s m e =>
      let a := if 0 <=? e then Z.shiftl (Zpos m) e
               else Z.shiftr (Zpos m) (- e) in
      Some (if s then - a else a)
  | S754_infinity _ => None
  | S754_nan => None
  end.

(** Group the digits of a decimal numeral by three, from the right. *)
Fixpoint group3 (rev_digits : list ascii) (n : nat) : list ascii :=
  match rev_digits with
  | [] => []
  | c :: rest =>
      match n, rest with
      | S (S O), _ :: _ => c :: ","%char :: group3 rest O
      | _, _ => c :: group3 rest (S n)
      end
  end.

(** [f'{x:,d}']. *)
Definition format_thousands (x : Z) : string :=
  let ds := list_ascii_of_string
              (NilZero.string_of_uint (N.to_uint (Z.abs_N x))) in
  let body := string_of_list_ascii (rev (group3 (rev ds) O)) in
  if x <? 0 then String "-"%char body else body.

End Python.

(* ------------------------------------------------------------------ *)
(** ** Data model *)

(** A cell of a scraped column: JSON null, an integer, a float or a
    string. *)
Inductive cell : Type :=
| VNull
| VInt (z : Z)
| VFloat (f : float)
| VStr (s : string).

(** A latitude or longitude is a float column; its missing value is
    [nan], which is what [notna] tests. *)
Definition notna (x : float) : bool := negb (PrimFloat.is_nan x).

(** Price Record: one scraped building.  [buildingaddress] and [region]
    are the two join keys (strings, as [get_coordinates] is typed). *)
Module Price.
Record row : Type := mk {
  buildingname : cell;
  buildingaddress : string;
  region : string;
  medianpredprice : cell;
  transactionscount : cell;
  built : cell;
  numberofunits : cell;
  numberoffloors : cell;
  colour : cell
}.
End Price.

(** Coordinate Record: indexed by building address. *)
Module Coord.
Record row : Type := mk {
  index : string;
  lat : float;
  lng : float
}.
End Coord.

(** One row of the region lookup: indexed by region ([None] is the missing
    label that [explode] produces for an empty list). *)
Module District.
Record row : Type := mk {
  regions : option string;
  district : string
}.
End District.

(** Combined Record: the row handed to the renderer. *)
Module Combined.
Record row : Type := mk {
  buildingname : cell;
  buildingaddress : string;
  region : string;
  district : option string;
  medianpredprice : Z;
  lat : float;
  lng : float;
  transactionscount : Z;
  built : Z;
  numberofunits : Z;
  numberoffloors : Z;
  colour : cell;
  medianpredprice_formatted : string;
  r : Z;
  g : Z;
  b : Z
}.
End Combined.

Definition prices_frame : Type := list Price.row.
Definition coordinates_frame : Type := list Coord.row.
Definition district_frame : Type := list District.row.
Definition result_frame : Type := list Combined.row.

(* ------------------------------------------------------------------ *)
(** ** The pandas operations the program uses *)

Module Pandas.

(** [Series.isin(index)]. *)
Definition isin (a : string) (labels : list string) : bool :=
  existsb (String.eqb a) labels.

(** [Index.is_unique]. *)
Fixpoint is_unique (labels : list string) : bool :=
  match labels with
  | [] => true
  | a :: rest => (negb (isin a rest) && is_unique rest)%bool
  end.

(** [pd.DataFrame(values, index=labels, columns=['lat', 'lng'])]. *)
Definition DataFrame (values : list (float * float)) (labels : list string)
  : coordinates_frame :=
  map (fun lv => Coord.mk (fst lv) (fst (snd lv)) (snd (snd lv)))
      (combine labels values).

(** [df.explode('regions')] followed by
    [rename_axis('district').reset_index().set_index('regions')]:
    one row per list element, an empty list giving one row with a
    missing label. *)
Definition explode (row : string * list string) : district_frame :=
  match snd row with
  | [] => [District.mk None (fst row)]
  | rs => map (fun r => District.mk (Some r) (fst row)) rs
  end.

(** The range of the [int64] that [astype(int)] converts to. *)
Definition int64 (z : Z) : bool := ((- 2 ^ 63 <=? z) && (z <? 2 ^ 63))%bool.

Definition int64_min : Z := - 2 ^ 63.

(** A string of an object column: [int] of it, which must fit [int64]
    ("Python int too large to convert to C long"). *)
Definition int64_of_str (s : string) : result Z :=
  match Python.int_of_str s with
  | Some z => if int64 z then Ok z else Raise OverflowError
  | None => Raise ValueError
  end.

(** [Series.astype(int)], element by element.  A string or a null is a
    cell of an object column.  An integer is a cell of an integer column:
    of [int64], or up to [2^64] of [uint64], whose cast wraps; a larger one
    is a Python integer, which does not fit.  A float is a cell of a
    [float64] column: the cast refuses [nan] and the infinities, truncates,
    and beyond the range gives the [int64] minimum (the x86-64 cast). *)
Definition int_of_cell (c : cell) : result Z :=
  match c with
  | VNull => Raise TypeError
  | VInt z =>
      if int64 z then Ok z
      else if ((2 ^ 63 <=? z) && (z <? 2 ^ 64))%bool then Ok (z - 2 ^ 64)
           else Raise OverflowError
  | VFloat f =>
      match Python.int_of_float f with
      | Some z => Ok (if int64 z then z else int64_min)
      | None => Raise ValueError
      end
  | VStr s => int64_of_str s
  end.

Definition astype_int (col : list cell) : result (list Z) :=
  mapM int_of_cell col.

(** [Series.str.split(',')]: a list of fields for a string, a missing
    value for anything else. *)
Definition str_split (c : cell) : option (list string) :=
  match c with
  | VStr s => Some (Python.split ","%char s)
  | _ => None
  end.

(** [expand=True]: the fields become columns.  The frame is as wide as
    its longest row (a missing value counts as one field), shorter rows
    are filled with missing values, and a frame without rows has no
    column at all. *)
Definition cons_row (x : option (list string)) : list (option string) :=
  match x with
  | Some fields => map Some fields
  | None => [None]
  end.

Definition pad (width : nat) (fields : list (option string))
  : list (option string) :=
  (fields ++ repeat None (width - List.length fields)%nat)%list.

Record split_frame (A : Type) : Type := mk_split {
  width : nat;
  rows : list (list A)
}.
Arguments mk_split {A} width rows.
Arguments width {A} s.
Arguments rows {A} s.

Definition str_split_expand (col : list cell) : split_frame (option string) :=
  let fields := map (fun c => cons_row (str_split c)) col in
  let w := list_max (map (@List.length _) fields) in
  mk_split w (map (pad w) fields).

(** [DataFrame.astype(int)] on the expanded fields, which are strings or
    missing. *)
Definition int_of_field (x : option string) : result Z :=
  match x with
  | None => Raise TypeError
  | Some s => int64_of_str s
  end.

Definition frame_astype_int (f : split_frame (option string))
  : result (split_frame Z) :=
  (rs <- mapM (mapM int_of_field) (rows f) ;;
   Ok (mk_split (width f) rs))%result.

(** [df[['r', 'g', 'b']] = value]: the value must have exactly as many
    columns as there are keys ("Columns must be same length as key"). *)
Definition triple (row : list Z) : result (Z * Z * Z) :=
  match row with
  | [x; y; z] => Ok (x, y, z)
  | _ => Raise ValueError
  end.

Definition setitem3 (value : split_frame Z) : result (list (Z * Z * Z)) :=
  if Nat.eqb (width value) 3
  then mapM triple (rows value)
  else Raise ValueError.

End Pandas.

(** A row of the frame after the two joins and the column selection. *)
Module Joined.
Record row : Type := mk {
  price : Price.row;
  coord : Coord.row;
  district : option string
}.
End Joined.

(** [prices_df.join(coordinates_df, on='buildingaddress', how='inner')]:
    each price row once per coordinate row carrying its address, in the
    order of the price rows. *)
Definition join_coordinates (prices_df : prices_frame)
           (coordinates_df : coordinates_frame)
  : list (Price.row * Coord.row) :=
  flat_map (fun p =>
              map (pair p)
                  (filter (fun c => String.eqb (Coord.index c)
                                               (Price.buildingaddress p))
                          coordinates_df))
           prices_df.

Definition region_rows (district_df : district_frame) (region : string)
  : district_frame :=
  filter (fun d => match District.regions d with
                   | Some r => String.eqb r region
                   | None => false
                   end) district_df.

(** [result_df.join(district_df, on='region')]: a left join; a row whose
    region has no label in [district_df] is kept, with a missing district. *)
Definition join_districts (rows : list (Price.row * Coord.row))
           (district_df : district_frame) : list Joined.row :=
  flat_map (fun pc =>
              match region_rows district_df (Price.region (fst pc)) with
              | [] => [Joined.mk (fst pc) (snd pc) None]
              | ds => map (fun d => Joined.mk (fst pc) (snd pc)
                                              (Some (District.district d))) ds
              end)
           rows.

(** The columns computed one by one are put back side by side. *)
Fixpoint assemble (rows : list Joined.row) (medianpredprice : list Z)
         (rgb : list (Z * Z * Z))
         (transactionscount built numberofunits numberoffloors : list Z)
  : result_frame :=
  match rows, medianpredprice, rgb,
        transactionscount, built, numberofunits, numberoffloors with
  | j :: rows', m :: ms, (cr, cg, cb) :: rgb',
    t :: ts, bu :: bus, nu :: nus, nf :: nfs =>
      Combined.mk (Price.buildingname (Joined.price j))
                  (Price.buildingaddress (Joined.price j))
                  (Price.region (Joined.price j))
                  (Joined.district j)
                  m
                  (Coord.lat (Joined.coord j))
                  (Coord.lng (Joined.coord j))
                  t bu nu nf
                  (Price.colour (Joined.price j))
                  (Python.format_thousands m)
                  cr cg cb
      :: assemble rows' ms rgb' ts bus nus nfs
  | _, _, _, _, _, _, _ => []
  end.

Definition combine_and_format_data (prices_df : prices_frame)
           (coordinates_df : coordinates_frame) (district_df : district_frame)
  : result result_frame :=
  let result_df := join_coordinates prices_df coordinates_df in
  let result_df := join_districts result_df district_df in
  let column (f : Price.row -> cell) :=
    map (fun j => f (Joined.price j)) result_df in
  (* line 66 selects the columns of [Combined.row] *)
  (medianpredprice <- Pandas.astype_int (column Price.medianpredprice) ;;
   (* line 68, [medianpredprice_formatted], is computed in [assemble] *)
   split <- Pandas.frame_astype_int
              (Pandas.str_split_expand (column Price.colour)) ;;
   rgb <- Pandas.setitem3 split ;;
   (* lines 70-71: [astype(float)] leaves the float columns as they are *)
   transactionscount <- Pandas.astype_int (column Price.transactionscount) ;;
   built <- Pandas.astype_int (column Price.built) ;;
   numberofunits <- Pandas.astype_int (column Price.numberofunits) ;;
   numberoffloors <- Pandas.astype_int (column Price.numberoffloors) ;;
   Ok (assemble result_df medianpredprice rgb
                transactionscount built numberofunits numberoffloors))%result.

(* ------------------------------------------------------------------ *)
(** ** The world: the files under [./data], the rendered page, the network *)

Inductive call : Type :=
| HttpGet (url : string)
| Geocode (address : string).

(** A file written by the run, with the table written. *)
Inductive output : Type :=
| PricesJson (t : prices_frame)
| CoordinatesJson (t : coordinates_frame)
| DistrictHtml (t : result_frame).

(** One entry of [districts.json], which is read with [orient='index']:
    a district and, when its entry is a record with the key [regions], the
    list under that key.  An entry that is a record without the key, or no
    record at all (a bare list of regions), has none. *)
Definition district_record : Type := (string * option (list string))%type.

(** The records of a district file in which every district has its list
    of regions: [{"NewTerritories": {"regions": ["regionA", "regionB"]}}]
    for the mapping of [NewTerritories] to its two regions. *)
Definition district_records (mapping : list (string * list string))
  : list district_record :=
  map (fun row => (fst row, Some (snd row))) mapping.

Record world : Type := mkWorld {
  prices_json : option prices_frame;
  coordinates_json : option coordinates_frame;
  districts_json : option (list district_record);
  district_html : option result_frame;
  network : list call;
  outputs : list output
}.

Definition log (c : call) (w : world) : world :=
  mkWorld (prices_json w) (coordinates_json w) (districts_json w)
          (district_html w) (network w ++ [c]) (outputs w).

Definition log_all (cs : list call) (w : world) : world :=
  mkWorld (prices_json w) (coordinates_json w) (districts_json w)
          (district_html w) (network w ++ cs) (outputs w).

(** The three writes put the table in the file and note the write; they
    do not check that the table can be written, which is the caller's
    part ([coordinates_to_json]). *)
Definition write_prices (t : prices_frame) (w : world) : world :=
  mkWorld (Some t) (coordinates_json w) (districts_json w)
          (district_html w) (network w) (outputs w ++ [PricesJson t]).

Definition write_coordinates (t : coordinates_frame) (w : world) : world :=
  mkWorld (prices_json w) (Some t) (districts_json w)
          (district_html w) (network w) (outputs w ++ [CoordinatesJson t]).

Definition write_html (t : result_frame) (w : world) : world :=
  mkWorld (prices_json w) (coordinates_json w) (districts_json w)
          (Some t) (network w) (outputs w ++ [DistrictHtml t]).

(** Computations that read and change the world and may raise. *)
Definition io (A : Type) : Type := world -> result A * world.

Definition ret {A : Type} (a : A) : io A := fun w => (Ok a, w).

Definition throw {A : Type} (e : exception) : io A := fun w => (Raise e, w).

Definition bind_io {A B : Type} (m : io A) (k : A -> io B) : io B :=
  fun w =>
    match m w with
    | (Ok a, w') => k a w'
    | (Raise e, w') => (Raise e, w')
    end.

Definition lift {A : Type} (r : result A) : io A := fun w => (r, w).

Declare Scope io_scope.
Delimit Scope io_scope with io.
Notation "x <- m ;; k" := (bind_io m (fun x => k))
  (at level 61, m at next level, right associativity) : io_scope.
Notation "m ;;; k" := (bind_io m (fun _ => k))
  (at level 61, right associativity) : io_scope.

(** [Series.apply(f)]: one call of [f] per element, in order. *)
Fixpoint apply {A B : Type} (f : A -> io B) (l : list A) : io (list B) :=
  match l with
  | [] => ret []
  | x :: l' =>
      (y <- f x ;;
       ys <- apply f l' ;;
       ret (y :: ys))%io
  end.

(** [pd.read_json(path, orient='index')]: the table of the file, which the
    world holds as pandas loads it (the inference of column types and the
    conversion of labels on loading are not part of the model). *)
Definition read_json {A : Type} (file : world -> option A) : io A :=
  fun w =>
    match file w with
    | Some t => (Ok t, w)
    | None => (Raise FileNotFoundError, w)
    end.

(** [try: m  except FileNotFoundError: handler]. *)
Definition except_FileNotFoundError {A : Type} (m handler : io A) : io A :=
  fun w =>
    match m w with
    | (Raise FileNotFoundError, w') => handler w'
    | other => other
    end.

Definition modify (f : world -> world) : io unit := fun w => (Ok tt, f w).

(* ------------------------------------------------------------------ *)
(** ** The pipeline *)

Record response : Type := mkResponse {
  status_code : Z;
  text : string
}.

(** What [data['props']['pageProps']] of a neighbourhood page holds. *)
Inductive pageProps : Type :=
| statusCode
| buildings (data : prices_frame).

Definition base_url : string := "https://truehome.hk".

Section Pipeline.

(** [session.get]: the response of the web site to a URL. *)
Variable session_get : string -> response.
(** The [href]s of the anchors of class [hk11] in a page. *)
Variable hk11_links : string -> result (list string).
(** The page properties in the [__NEXT_DATA__] script of a page. *)
Variable next_data : string -> result pageProps.
(** [gmaps.geocode(address, region='HK')]: the (lat, lng) locations of
    the matches, best first. *)
Variable gmaps_geocode : string -> list (float * float).

Definition get (url : string) : io response :=
  fun w => (Ok (session_get url), log (HttpGet url) w).

(** The loop of [get_prices] over the neighbourhood links. *)
Fixpoint get_neighbourhoods (neighbourhood_links : list string)
         (prices_df : prices_frame) : io prices_frame :=
  match neighbourhood_links with
  | [] => ret prices_df
  | neighbourhood_link :: links =>
      (page <- get (base_url ++ neighbourhood_link)%string ;;
       if negb (status_code page =? 200)
       then get_neighbourhoods links prices_df
       else
         data <- lift (next_data (text page)) ;;
         match data with
         | statusCode => get_neighbourhoods links prices_df
         | buildings b => get_neighbourhoods links (prices_df ++ b)
         end)%io
  end.

Definition get_prices : io prices_frame :=
  except_FileNotFoundError
    (read_json prices_json)
    (home_page <- get (base_url ++ "/prices/neighborhoods")%string ;;
     neighbourhood_links <- lift (hk11_links (text home_page)) ;;
     get_neighbourhoods neighbourhood_links [])%io.

(** The nested function [get_coordinates(building)] of
    [get_coordinates]: one geocoding query, the sentinel [(0, 0)] when
    there is no match. *)
Definition get_coordinates_inner (building : string) : io (float * float) :=
  fun w =>
    let geocode_result := gmaps_geocode building in
    let w := log (Geocode building) w in
    match geocode_result with
    | [] => (Ok (0%float, 0%float), w)
    | location :: _ => (Ok (fst location, snd location), w)
    end.

Definition get_coordinates (buildingaddress : list string)
  : io coordinates_frame :=
  (coordinates_df <- except_FileNotFoundError
                       (read_json coordinates_json) (ret []) ;;
   let buildings_to_get :=
     filter (fun a => negb (Pandas.isin a (map Coord.index coordinates_df)))
            buildingaddress in
   match buildings_to_get with
   | [] => ret coordinates_df
   | _ :: _ =>
       fetched <- apply get_coordinates_inner buildings_to_get ;;
       let coordinates_df :=
         coordinates_df ++ Pandas.DataFrame fetched buildings_to_get in
       let coordinates_df :=
         filter (fun c => notna (Coord.lat c)) coordinates_df in
       ret coordinates_df
   end)%io.

(** Line 58: the column [regions] of the loaded frame.  The frame has the
    column when some record has the key, and a record without it has a
    missing value there, which [explode] turns into one row with a missing
    label as it does an empty list; without the column, and so on an empty
    file, [explode('regions')] raises [KeyError]. *)
Definition regions_column (district_df : list district_record)
  : result (list (string * list string)) :=
  if existsb (fun record => match snd record with
                            | Some _ => true
                            | None => false
                            end) district_df
  then Ok (map (fun record => (fst record,
                               match snd record with
                               | Some regions => regions
                               | None => []
                               end)) district_df)
  else Raise KeyError.

Definition get_districts : io district_frame :=
  (district_df <- read_json districts_json ;;
   regions <- lift (regions_column district_df) ;;
   ret (flat_map Pandas.explode regions))%io.

Definition visualize (prices_df : result_frame) : io unit :=
  modify (write_html prices_df).

(** [coordinates_df.to_json(path, orient='index')]: the index labels
    become the keys of a JSON object, so they must be unique. *)
Definition coordinates_to_json (coordinates_df : coordinates_frame)
  : io unit :=
  if Pandas.is_unique (map Coord.index coordinates_df)
  then modify (write_coordinates coordinates_df)
  else throw ValueError.

(** [prices_df['buildingaddress']] at line 114.  The frame is the one
    [get_prices] gave: without rows it has no column either (an empty file
    and an empty list of buildings give none), and the lookup raises. *)
Definition buildingaddress_column (prices_df : prices_frame)
  : io (list string) :=
  match prices_df with
  | [] => throw KeyError
  | _ :: _ => ret (map Price.buildingaddress prices_df)
  end.

Definition main : io unit :=
  (prices_df <- get_prices ;;
   modify (write_prices prices_df) ;;;
   buildingaddress <- buildingaddress_column prices_df ;;
   coordinates_df <- get_coordinates buildingaddress ;;
   coordinates_to_json coordinates_df ;;;
   district_df <- get_districts ;;
   result_df <- lift (combine_and_format_data prices_df coordinates_df
                                              district_df) ;;
   visualize result_df)%io.

End Pipeline.

(* ------------------------------------------------------------------ *)
(** ** Notions used to state the properties *)

(** The coordinate cache a run starts from. *)
Definition loaded_coordinates (w : world) : coordinates_frame :=
  match coordinates_json w with
  | Some t => t
  | None => []
  end.

Definition keys (coordinates_df : coordinates_frame) : list string :=
  map Coord.index coordinates_df.

(** The occurrences in the series of addresses that are no key of the
    cache: line 50 of the source. *)
Definition buildings_to_get (coordinates_df : coordinates_frame)
           (buildingaddress : list string) : list string :=
  filter (fun a => negb (Pandas.isin a (keys coordinates_df))) buildingaddress.

(** What the inner [get_coordinates] returns for a building. *)
Definition located (gmaps_geocode : string -> list (float * float))
           (building : string) : float * float :=
  match gmaps_geocode building with
  | [] => (0%float, 0%float)
  | location :: _ => location
  end.

(** The table [get_coordinates] returns from a given cache: the cache
    itself when nothing is to fetch, else the cache and the fetched rows
    without those of null latitude. *)
Definition coordinates_after (gmaps_geocode : string -> list (float * float))
           (cache : coordinates_frame) (series : list string)
  : coordinates_frame :=
  match buildings_to_get cache series with
  | [] => cache
  | to_get =>
      filter (fun c => notna (Coord.lat c))
             (cache ++ Pandas.DataFrame (map (located gmaps_geocode) to_get)
                                        to_get)
  end.

(** The geocoding queries for one address in a log of calls. *)
Definition queries_for (address : string) (calls : list call) : nat :=
  List.length (filter (fun c => match c with
                                | Geocode a => String.eqb address a
                                | HttpGet _ => false
                                end) calls).

Definition occurrences (address : string) (series : list string) : nat :=
  List.length (filter (String.eqb address) series).

(** [new] has every key of [old] and at least one more. *)
Definition strict_superset (new old : list string) : Prop :=
  incl old new /\ ~ incl new old.

(** The three channels of a well-formed colour. *)
Definition channels (c : cell) : option (Z * Z * Z) :=
  match c with
  | VStr s =>
      match Python.split ","%char s with
      | [x; y; z] =>
          match Pandas.int64_of_str x, Pandas.int64_of_str y,
                Pandas.int64_of_str z with
          | Ok cr, Ok cg, Ok cb => Some (cr, cg, cb)
          | _, _, _ => None
          end
      | _ => None
      end
  | _ => None
  end.

(** A colour that is no string, has not three comma-separated fields, or
    has a field that is no integer. *)
Definition malformed_colour (c : cell) : Prop :=
  match c with
  | VStr s =>
      List.length (Python.split ","%char s) <> 3%nat \/
      exists field, In field (Python.split ","%char s) /\
                    Python.int_of_str field = None
  | _ => True
  end.

(** A price row one of whose numeric fields does not coerce to an integer,
    or whose colour is malformed. *)
Definition uncoercible (p : Price.row) : Prop :=
  raises (Pandas.int_of_cell (Price.medianpredprice p)) \/
  raises (Pandas.int_of_cell (Price.transactionscount p)) \/
  raises (Pandas.int_of_cell (Price.built p)) \/
  raises (Pandas.int_of_cell (Price.numberofunits p)) \/
  raises (Pandas.int_of_cell (Price.numberoffloors p)) \/
  malformed_colour (Price.colour p).

(** A price row all of whose numeric fields coerce and whose colour has
    three integer channels. *)
Definition coercible (p : Price.row) : Prop :=
  (exists z, Pandas.int_of_cell (Price.medianpredprice p) = Ok z) /\
  (exists z, Pandas.int_of_cell (Price.transactionscount p) = Ok z) /\
  (exists z, Pandas.int_of_cell (Price.built p) = Ok z) /\
  (exists z, Pandas.int_of_cell (Price.numberofunits p) = Ok z) /\
  (exists z, Pandas.int_of_cell (Price.numberoffloors p) = Ok z) /\
  (exists x, channels (Price.colour p) = Some x).

(** A cell that converts to an integer in whatever column holds it: an
    integer of the 64-bit range, a float whose truncation is in the range,
    or a numeral with a value in the range and at most 640 characters
    (some interpreters refuse numerals with more digits than a limit that
    can be set, never below 640). *)
Definition plain_cell (c : cell) : Prop :=
  match c with
  | VNull => False
  | VInt z => Pandas.int64 z = true
  | VFloat f =>
      exists z, Python.int_of_float f = Some z /\ Pandas.int64 z = true
  | VStr s =>
      (String.length s <= 640)%nat /\
      exists z, Pandas.int64_of_str s = Ok z
  end.

(** A price row whose five numeric fields are plain and whose colour is a
    string of at most 640 characters with three integer channels. *)
Definition plain (p : Price.row) : Prop :=
  plain_cell (Price.medianpredprice p) /\
  plain_cell (Price.transactionscount p) /\
  plain_cell (Price.built p) /\
  plain_cell (Price.numberofunits p) /\
  plain_cell (Price.numberoffloors p) /\
  exists s x, Price.colour p = VStr s /\
              (String.length s <= 640)%nat /\
              channels (VStr s) = Some x.


(** The frame after the two joins. *)
Definition joined_frame (prices_df : prices_frame)
           (coordinates_df : coordinates_frame) (district_df : district_frame)
  : list Joined.row :=
  join_districts (join_coordinates prices_df coordinates_df) district_df.

(** The combined row of a joined row whose fields all coerce. *)
Definition format_row (j : Joined.row) : Combined.row :=
  let int (f : Price.row -> cell) :=
    force 0 (Pandas.int_of_cell (f (Joined.price j))) in
  let rgb := match channels (Price.colour (Joined.price j)) with
             | Some x => x
             | None => (0, 0, 0)
             end in
  Combined.mk (Price.buildingname (Joined.price j))
              (Price.buildingaddress (Joined.price j))
              (Price.region (Joined.price j))
              (Joined.district j)
              (int Price.medianpredprice)
              (Coord.lat (Joined.coord j))
              (Coord.lng (Joined.coord j))
              (int Price.transactionscount)
              (int Price.built)
              (int Price.numberofunits)
              (int Price.numberoffloors)
              (Price.colour (Joined.price j))
              (Python.format_thousands (int Price.medianpredprice))
              (fst (fst rgb)) (snd (fst rgb)) (snd rgb).

(* ------------------------------------------------------------------ *)
(** ** Sample data *)

Module Sample.

Definition session_get (url : string) : response := mkResponse 404 "".
Definition hk11_links (page : string) : result (list string) := Ok [].
Definition next_data (page : string) : result pageProps := Ok statusCode.

(** A geocoder that knows one building only. *)
Definition gmaps_geocode (address : string) : list (float * float) :=
  if String.eqb address "1 Austin Road West"
  then [(22.25%float, 114.125%float)]
  else [].

Definition tower (address colour price : string) : Price.row :=
  Price.mk (VStr "Tower") address "regionA" (VStr price)
           (VInt 5) (VInt 1999) (VInt 100) (VInt 30) (VStr colour).

Definition icc : Price.row :=
  tower "1 Austin Road West" "10,200,30" "6543210".
Definition unknown : Price.row :=
  tower "No Such Street" "1,2,3" "100".
Definition garbled : Price.row :=
  tower "1 Austin Road West" "10,200,30" "n/a".
Definition garbled_unknown : Price.row :=
  tower "No Such Street" "10,200,30" "n/a".

Definition icc_coordinates : Coord.row :=
  Coord.mk "1 Austin Road West" 22.25%float 114.125%float.
Definition null_coordinates : Coord.row :=
  Coord.mk "1 Austin Road West" nan nan.

Definition districts : list (string * list string) :=
  [("NewTerritories", ["regionA"; "regionB"])].

Definition districts_file : list district_record :=
  district_records districts.

(** No file but the district mapping, nothing fetched yet. *)
Definition fresh : world := mkWorld None None (Some districts_file) None [] [].


Definition with_prices (prices_df : prices_frame)
           (cache : option coordinates_frame) : world :=
  mkWorld (Some prices_df) cache (Some districts_file) None [] [].

End Sample.

(* ------------------------------------------------------------------ *)
(** ** Notions used to state the properties of the whole pipeline *)

Definition index_url : string := (base_url ++ "/prices/neighborhoods")%string.

Definition page_url (neighbourhood_link : string) : string :=
  (base_url ++ neighbourhood_link)%string.

(** A neighbourhood page the loop of [get_prices] gets past: it is not
    answered with status 200, or its data block parses. *)
Definition page_passes (session_get : string -> response)
           (next_data : string -> result pageProps) (link : string) : Prop :=
  status_code (session_get (page_url link)) <> 200 \/
  exists data, next_data (text (session_get (page_url link))) = Ok data.

(** The buildings a neighbourhood page adds to the price table. *)
Definition page_rows (session_get : string -> response)
           (next_data : string -> result pageProps) (link : string)
  : prices_frame :=
  if status_code (session_get (page_url link)) =? 200
  then match next_data (text (session_get (page_url link))) with
       | Ok (buildings b) => b
       | _ => []
       end
  else [].

(** The price rows whose address is a key of the coordinate table: those
    the inner join keeps. *)
Definition located_prices (prices_df : prices_frame)
           (coordinates_df : coordinates_frame) : prices_frame :=
  filter (fun p => Pandas.isin (Price.buildingaddress p) (keys coordinates_df))
         prices_df.

(** The number of rows the two joins make of one price row. *)
Definition multiplicity (coordinates_df : coordinates_frame)
           (district_df : district_frame) (p : Price.row) : nat :=
  (occurrences (Price.buildingaddress p) (keys coordinates_df)
   * Nat.max 1 (List.length (region_rows district_df (Price.region p))))%nat.

(** A district of the mapping that lists at least one region. *)
Definition has_regions (row : string * list string) : bool :=
  match snd row with
  | [] => false
  | _ :: _ => true
  end.

(** A string without its commas. *)
Definition remove_commas (s : string) : string :=
  string_of_list_ascii
    (filter (fun c => negb (Ascii.eqb c ","%char)) (list_ascii_of_string s)).

(** The decimal numeral of an integer, as [str] prints it. *)
Definition decimal (z : Z) : string :=
  NilZero.string_of_int (Z.to_int z).

(** The value of a decimal number read digit by digit onto [acc]. *)
Fixpoint uint_value (d : Decimal.uint) (acc : Z) : Z :=
  match d with
  | Decimal.Nil => acc
  | Decimal.D0 d => uint_value d (10 * acc)
  | Decimal.D1 d => uint_value d (10 * acc + 1)
  | Decimal.D2 d => uint_value d (10 * acc + 2)
  | Decimal.D3 d => uint_value d (10 * acc + 3)
  | Decimal.D4 d => uint_value d (10 * acc + 4)
  | Decimal.D5 d => uint_value d (10 * acc + 5)
  | Decimal.D6 d => uint_value d (10 * acc + 6)
  | Decimal.D7 d => uint_value d (10 * acc + 7)
  | Decimal.D8 d => uint_value d (10 * acc + 8)
  | Decimal.D9 d => uint_value d (10 * acc + 9)
  end.

(** The characters [int] accepts in a string: digits, white space, the
    underscore and the two signs. *)
Definition int_char (c : ascii) : bool :=
  (Python.is_digit c || Python.is_space c || Ascii.eqb c "_"%char
   || Ascii.eqb c "+"%char || Ascii.eqb c "-"%char)%bool.

(** Two worlds with the same files and the same rendered page. *)
Definition same_files (w w' : world) : Prop :=
  prices_json w' = prices_json w /\
  coordinates_json w' = coordinates_json w /\
  districts_json w' = districts_json w /\
  district_html w' = district_html w /\
  outputs w' = outputs w.

(** A world with a price file and no district file. *)
Definition without_districts : world :=
  mkWorld (Some [Sample.icc]) None None None [] [].

(** A small site: an index with four neighbourhoods, of which the second
    is down, the third is an error page and the fourth does not parse. *)
Module Site.

Definition session_get (url : string) : response :=
  if String.eqb url index_url then mkResponse 200 "index"
  else if String.eqb url (page_url "/kowloon") then mkResponse 200 "kowloon"
  else if String.eqb url (page_url "/down") then mkResponse 503 "down"
  else if String.eqb url (page_url "/gone") then mkResponse 200 "gone"
  else if String.eqb url (page_url "/broken") then mkResponse 200 "broken"
  else mkResponse 404 "".

Definition hk11_links (page : string) : result (list string) :=
  if String.eqb page "index" then Ok ["/kowloon"; "/down"; "/gone"]
  else if String.eqb page "index2"
       then Ok ["/kowloon"; "/broken"; "/gone"]
       else Raise KeyError.

Definition next_data (page : string) : result pageProps :=
  if String.eqb page "kowloon" then Ok (buildings [Sample.icc; Sample.unknown])
  else if String.eqb page "gone" then Ok statusCode
  else Raise AttributeError.

(** The same site with an index that lists the page that does not parse. *)
Definition session_get2 (url : string) : response :=
  if String.eqb url index_url then mkResponse 200 "index2"
  else session_get url.

Definition offline : world :=
  mkWorld None None (Some Sample.districts_file) None [] [].

End Site.

(* ------------------------------------------------------------------ *)
(** ** The world and its log *)

Lemma log_all_nil (w : world) : log_all [] w = w.
Proof.
  destruct w; unfold log_all; simpl. now rewrite app_nil_r.
Qed.

Lemma log_all_cons (c : call) (cs : list call) (w : world) :
  log_all cs (log c w) = log_all (c :: cs) w.
Proof.
  unfold log_all, log; simpl. now rewrite <- app_assoc.
Qed.



(* ------------------------------------------------------------------ *)
(** ** Membership in a series and in an index *)

Lemma isin_true (a : string) (labels : list string) :
  Pandas.isin a labels = true <-> In a labels.
Proof.
  unfold Pandas.isin. rewrite existsb_exists. split.
  - intros [x [Hx E]]. apply String.eqb_eq in E. now subst.
  - intros H. exists a. split; [assumption | apply String.eqb_refl].
Qed.

Lemma isin_false (a : string) (labels : list string) :
  Pandas.isin a labels = false <-> ~ In a labels.
Proof.
  rewrite <- isin_true. destruct (Pandas.isin a labels); split; intro H;
    try reflexivity; try discriminate; try (intro; discriminate).
  exfalso. now apply H.
Qed.

Lemma buildings_to_get_In (cache : coordinates_frame) (series : list string)
      (a : string) :
  In a (buildings_to_get cache series) <-> In a series /\ ~ In a (keys cache).
Proof.
  unfold buildings_to_get. rewrite filter_In, negb_true_iff, isin_false.
  reflexivity.
Qed.

Lemma buildings_to_get_nil (cache : coordinates_frame) (series : list string) :
  (forall a, In a series -> In a (keys cache)) ->
  buildings_to_get cache series = [].
Proof.
  intros H. destruct (buildings_to_get cache series) as [|a l] eqn:E.
  - reflexivity.
  - assert (Ha : In a (buildings_to_get cache series))
      by (rewrite E; now left).
    apply buildings_to_get_In in Ha. destruct Ha as [Hs Hk].
    exfalso. apply Hk. now apply H.
Qed.

(* ------------------------------------------------------------------ *)
(** ** The geocoder *)

Section Geocoder.

Variable gmaps_geocode : string -> list (float * float).

Lemma apply_inner (l : list string) (w : world) :
  apply (get_coordinates_inner gmaps_geocode) l w =
  (Ok (map (located gmaps_geocode) l), log_all (map Geocode l) w).
Proof.
  revert w. induction l as [|a l IH]; intro w; simpl.
  - unfold ret. now rewrite log_all_nil.
  - unfold bind_io at 1. unfold get_coordinates_inner at 1, located at 1.
    destruct (gmaps_geocode a) as [|[la ln] rest]; simpl;
      unfold bind_io; rewrite IH; unfold ret;
      now rewrite log_all_cons.
Qed.

(** [get_coordinates] never raises; it returns [coordinates_after] of the
    loaded cache and logs one query per element of [buildings_to_get]. *)
Lemma get_coordinates_run (series : list string) (w : world) :
  get_coordinates gmaps_geocode series w =
  (Ok (coordinates_after gmaps_geocode (loaded_coordinates w) series),
   log_all (map Geocode (buildings_to_get (loaded_coordinates w) series)) w).
Proof.
  assert (Hread : except_FileNotFoundError
                    (read_json coordinates_json) (ret []) w
                  = (Ok (loaded_coordinates w), w)).
  { unfold except_FileNotFoundError, read_json, loaded_coordinates, ret.
    destruct (coordinates_json w); reflexivity. }
  unfold get_coordinates, bind_io at 1. rewrite Hread.
  change (filter _ series)
    with (buildings_to_get (loaded_coordinates w) series).
  unfold coordinates_after.
  destruct (buildings_to_get (loaded_coordinates w) series) as [|a l].
  - unfold ret. simpl. now rewrite log_all_nil.
  - unfold bind_io. rewrite apply_inner. reflexivity.
Qed.

Lemma DataFrame_In (l : list string) (a : string) :
  In a l ->
  In (Coord.mk a (fst (located gmaps_geocode a))
               (snd (located gmaps_geocode a)))
     (Pandas.DataFrame (map (located gmaps_geocode) l) l).
Proof.
  unfold Pandas.DataFrame. induction l as [|x l IH]; simpl; intros H.
  - contradiction.
  - destruct H as [-> | H]; [now left | right; now apply IH].
Qed.


(** Rows of the loaded cache with a latitude survive every run. *)
Lemma coordinates_after_keeps (cache : coordinates_frame)
      (series : list string) (c : Coord.row) :
  In c cache -> notna (Coord.lat c) = true ->
  In c (coordinates_after gmaps_geocode cache series).
Proof.
  intros Hc Hl. unfold coordinates_after.
  destruct (buildings_to_get cache series); [assumption|].
  apply filter_In. split; [|assumption].
  apply in_or_app. now left.
Qed.

(** When something is fetched, the null-latitude filter is applied. *)
Lemma coordinates_after_fetch_notna (cache : coordinates_frame)
      (series : list string) (c : Coord.row) :
  buildings_to_get cache series <> [] ->
  In c (coordinates_after gmaps_geocode cache series) ->
  notna (Coord.lat c) = true.
Proof.
  intros Hne Hc. unfold coordinates_after in Hc.
  destruct (buildings_to_get cache series); [congruence|].
  now apply filter_In in Hc.
Qed.

(** An address that is fetched without a match stays in the table, at
    the sentinel position: [0] is a latitude like any other for
    [notna]. *)
Lemma unmatched_address_is_kept (cache : coordinates_frame)
      (series : list string) (a : string) :
  In a series -> ~ In a (keys cache) -> gmaps_geocode a = [] ->
  In (Coord.mk a 0%float 0%float) (coordinates_after gmaps_geocode cache series).
Proof.
  intros Hs Hk Hg.
  assert (Ha : In a (buildings_to_get cache series))
    by (apply buildings_to_get_In; now split).
  unfold coordinates_after.
  destruct (buildings_to_get cache series) as [|x l] eqn:E;
    [contradiction|].
  apply filter_In. split; [|reflexivity].
  apply in_or_app. right.
  pose proof (DataFrame_In (x :: l) a Ha) as H.
  unfold located in H at 1 2. now rewrite Hg in H.
Qed.

End Geocoder.

(* ------------------------------------------------------------------ *)
(** ** Fallible traversals *)

Lemma bind_Ok_inv {A B : Type} (r : result A) (k : A -> result B) (b : B) :
  bind r k = Ok b -> exists a, r = Ok a /\ k a = Ok b.
Proof.
  destruct r as [a|e]; simpl; intros H; [|discriminate].
  now exists a.
Qed.

Lemma not_raises_Ok {A : Type} (r : result A) (a : A) :
  r = Ok a -> ~ raises r.
Proof. intros -> [e He]. discriminate. Qed.

Lemma result_cases {A : Type} (r : result A) :
  (exists a, r = Ok a) \/ raises r.
Proof.
  destruct r as [a|e]; [left; now exists a | right; now exists e].
Qed.

Lemma mapM_Ok_inv {A B : Type} (f : A -> result B) (d : B)
      (l : list A) (l' : list B) :
  mapM f l = Ok l' ->
  l' = map (fun x => force d (f x)) l /\ Forall (fun x => ~ raises (f x)) l.
Proof.
  revert l'. induction l as [|x l IH]; simpl; intros l' H.
  - inversion H. split; constructor.
  - apply bind_Ok_inv in H. destruct H as [y [Hy H]].
    apply bind_Ok_inv in H. destruct H as [ys [Hys H]].
    inversion H; subst. destruct (IH ys Hys) as [-> HF].
    split.
    + rewrite Hy. reflexivity.
    + constructor; [now apply not_raises_Ok with y | assumption].
Qed.


(* ------------------------------------------------------------------ *)
(** ** The colour split *)

Lemma int64_of_str_Ok (s : string) (z : Z) :
  Pandas.int64_of_str s = Ok z ->
  Python.int_of_str s = Some z /\ Pandas.int64 z = true.
Proof.
  unfold Pandas.int64_of_str.
  destruct (Python.int_of_str s) as [v|]; [|discriminate].
  destruct (Pandas.int64 v) eqn:E; [|discriminate].
  intros H. inversion H; subst. auto.
Qed.

Lemma row_channels (c : cell) (row : list Z) (x : Z * Z * Z) :
  mapM Pandas.int_of_field (Pandas.pad 3 (Pandas.cons_row (Pandas.str_split c)))
  = Ok row ->
  Pandas.triple row = Ok x ->
  channels c = Some x.
Proof.
  destruct c as [|z|f|s]; try (simpl; discriminate).
  unfold channels, Pandas.str_split, Pandas.cons_row, Pandas.pad.
  destruct (Python.split ","%char s) as [|f1 [|f2 [|f3 [|f4 fs]]]];
    simpl; unfold Pandas.int_of_field.
  - discriminate.
  - destruct (Pandas.int64_of_str f1); simpl; discriminate.
  - destruct (Pandas.int64_of_str f1); simpl; [|discriminate].
    destruct (Pandas.int64_of_str f2); simpl; discriminate.
  - destruct (Pandas.int64_of_str f1); simpl; [|discriminate].
    destruct (Pandas.int64_of_str f2); simpl; [|discriminate].
    destruct (Pandas.int64_of_str f3); simpl; [|discriminate].
    intros H1 H2. inversion H1; subst. simpl in H2. congruence.
  - destruct (Pandas.int64_of_str f1); simpl; [|discriminate].
    destruct (Pandas.int64_of_str f2); simpl; [|discriminate].
    destruct (Pandas.int64_of_str f3); simpl; [|discriminate].
    destruct (Pandas.int64_of_str f4); simpl; [|discriminate].
    destruct (mapM _ (map Some fs ++ [])); simpl; [|discriminate].
    intros H1 H2. inversion H1; subst. simpl in H2. discriminate.
Qed.

Lemma rows_channels (col : list cell) :
  forall (rs : list (list Z)) (rgb : list (Z * Z * Z)),
    mapM (mapM Pandas.int_of_field)
         (map (Pandas.pad 3)
              (map (fun c => Pandas.cons_row (Pandas.str_split c)) col))
    = Ok rs ->
    mapM Pandas.triple rs = Ok rgb ->
    Forall2 (fun c x => channels c = Some x) col rgb.
Proof.
  induction col as [|c col IH]; intros rs rgb H1 H2.
  - simpl in H1. inversion H1; subst. simpl in H2. inversion H2. constructor.
  - cbn [map mapM] in H1.
    apply bind_Ok_inv in H1. destruct H1 as [row [Hrow H1]].
    apply bind_Ok_inv in H1. destruct H1 as [rs' [Hrs' H1]].
    inversion H1; subst. cbn [mapM] in H2.
    apply bind_Ok_inv in H2. destruct H2 as [x [Hx H2]].
    apply bind_Ok_inv in H2. destruct H2 as [rgb' [Hrgb' H2]].
    inversion H2; subst. constructor.
    + now apply row_channels with row.
    + now apply IH with rs'.
Qed.

(** The colour step succeeds only on a frame with at least one row, all of
    whose colours have three integer channels. *)
Lemma colours_Ok_inv (col : list cell) (rgb : list (Z * Z * Z)) :
  bind (Pandas.frame_astype_int (Pandas.str_split_expand col)) Pandas.setitem3
  = Ok rgb ->
  Forall2 (fun c x => channels c = Some x) col rgb /\ col <> [].
Proof.
  intros H. apply bind_Ok_inv in H. destruct H as [sf [Hsf Hset]].
  unfold Pandas.frame_astype_int in Hsf.
  apply bind_Ok_inv in Hsf. destruct Hsf as [rs [Hrs Hsf]].
  inversion Hsf; subst sf; clear Hsf.
  unfold Pandas.setitem3 in Hset. cbn [Pandas.width Pandas.rows] in Hset.
  unfold Pandas.str_split_expand in Hset, Hrs.
  cbn [Pandas.width Pandas.rows] in Hset, Hrs.
  destruct (Nat.eqb _ 3) eqn:Ew in Hset; [|discriminate].
  apply Nat.eqb_eq in Ew. rewrite Ew in Hrs.
  split.
  - now apply rows_channels with rs.
  - intros ->. simpl in Ew. discriminate.
Qed.

Lemma channels_well_formed (c : cell) (x : Z * Z * Z) :
  channels c = Some x -> ~ malformed_colour c.
Proof.
  destruct c as [|z|f|s]; try discriminate.
  unfold channels, malformed_colour.
  destruct (Python.split ","%char s) as [|f1 [|f2 [|f3 [|f4 fs]]]];
    try discriminate.
  destruct (Pandas.int64_of_str f1) eqn:E1; [|discriminate].
  destruct (Pandas.int64_of_str f2) eqn:E2; [|discriminate].
  destruct (Pandas.int64_of_str f3) eqn:E3; [|discriminate].
  apply int64_of_str_Ok in E1, E2, E3.
  destruct E1 as [E1 _], E2 as [E2 _], E3 as [E3 _].
  intros _ [Hlen | [field [Hin Hnone]]].
  - now apply Hlen.
  - simpl in Hin. destruct Hin as [<- | [<- | [<- | []]]]; congruence.
Qed.

Lemma channels_inv (c : cell) (rgb : Z * Z * Z) :
  channels c = Some rgb ->
  exists s x y z,
    c = VStr s /\
    Python.split ","%char s = [x; y; z] /\
    Python.int_of_str x = Some (fst (fst rgb)) /\
    Python.int_of_str y = Some (snd (fst rgb)) /\
    Python.int_of_str z = Some (snd rgb).
Proof.
  unfold channels. destruct c as [| |f|s]; try discriminate.
  destruct (Python.split ","%char s) as [|x [|y [|z [|z' l]]]] eqn:Es;
    try discriminate.
  destruct (Pandas.int64_of_str x) eqn:Ex; [|discriminate].
  destruct (Pandas.int64_of_str y) eqn:Ey; [|discriminate].
  destruct (Pandas.int64_of_str z) eqn:Ez; [|discriminate].
  apply int64_of_str_Ok in Ex, Ey, Ez.
  destruct Ex as [Ex _], Ey as [Ey _], Ez as [Ez _].
  intros H. inversion H; subst rgb. exists s, x, y, z. simpl. auto.
Qed.

Lemma Forall2_channels_map (col : list cell) (rgb : list (Z * Z * Z)) :
  Forall2 (fun c x => channels c = Some x) col rgb ->
  rgb = map (fun c => match channels c with
                      | Some x => x
                      | None => (0, 0, 0)
                      end) col.
Proof.
  induction 1 as [|c x col rgb Hc _ IH]; simpl.
  - reflexivity.
  - now rewrite Hc, IH.
Qed.

(* ------------------------------------------------------------------ *)
(** ** The two joins *)

Lemma join_coordinates_In (prices_df : prices_frame)
      (coordinates_df : coordinates_frame) (p : Price.row) (c : Coord.row) :
  In (p, c) (join_coordinates prices_df coordinates_df) <->
  In p prices_df /\ In c coordinates_df /\
  Coord.index c = Price.buildingaddress p.
Proof.
  unfold join_coordinates. rewrite in_flat_map. split.
  - intros [p' [Hp' H]]. apply in_map_iff in H.
    destruct H as [c' [E Hc']]. inversion E; subst.
    apply filter_In in Hc'. destruct Hc' as [Hc' Hk].
    apply String.eqb_eq in Hk. auto.
  - intros [Hp [Hc Hk]]. exists p. split; [assumption|].
    apply in_map. apply filter_In. split; [assumption|].
    now apply String.eqb_eq.
Qed.

Lemma region_rows_In (district_df : district_frame) (region : string)
      (d : District.row) :
  In d (region_rows district_df region) <->
  In d district_df /\ District.regions d = Some region.
Proof.
  unfold region_rows. rewrite filter_In.
  destruct (District.regions d) as [r|].
  - split; intros [H E]; split; try assumption.
    + apply String.eqb_eq in E. now subst.
    + inversion E. apply String.eqb_refl.
  - split; intros [H E]; discriminate.
Qed.

Lemma join_districts_In (rows : list (Price.row * Coord.row))
      (district_df : district_frame) (j : Joined.row) :
  In j (join_districts rows district_df) ->
  In (Joined.price j, Joined.coord j) rows /\
  match Joined.district j with
  | None => region_rows district_df (Price.region (Joined.price j)) = []
  | Some name =>
      exists d, In d district_df /\
                District.regions d = Some (Price.region (Joined.price j)) /\
                District.district d = name
  end.
Proof.
  unfold join_districts. rewrite in_flat_map.
  intros [[p c] [Hpc H]]. cbn [fst snd] in H.
  destruct (region_rows district_df (Price.region p)) as [|d ds] eqn:E.
  - destruct H as [<- | []]. simpl. auto.
  - apply in_map_iff in H. destruct H as [d' [<- Hd']]. simpl.
    split; [assumption|]. exists d'.
    rewrite <- E in Hd'. apply region_rows_In in Hd'.
    destruct Hd' as [Hd' Hr]. auto.
Qed.

(** The left join drops nothing: every row of its left side has a row in
    the result. *)
Lemma join_districts_keeps (rows : list (Price.row * Coord.row))
      (district_df : district_frame) (p : Price.row) (c : Coord.row) :
  In (p, c) rows ->
  exists j, In j (join_districts rows district_df) /\
            Joined.price j = p /\ Joined.coord j = c /\
            (region_rows district_df (Price.region p) = [] ->
             Joined.district j = None).
Proof.
  intros H. unfold join_districts.
  destruct (region_rows district_df (Price.region p)) as [|d ds] eqn:E.
  - exists (Joined.mk p c None). split; [|auto].
    apply in_flat_map. exists (p, c). split; [assumption|].
    cbn [fst snd]. rewrite E. now left.
  - exists (Joined.mk p c (Some (District.district d))).
    split; [|repeat split; discriminate].
    apply in_flat_map. exists (p, c). split; [assumption|].
    cbn [fst snd]. rewrite E. now left.
Qed.

(* ------------------------------------------------------------------ *)
(** ** The formatter *)

Lemma assemble_map (rows : list Joined.row)
      (f1 f2 f3 f4 f5 : Joined.row -> Z) (frgb : Joined.row -> Z * Z * Z) :
  assemble rows (map f1 rows) (map frgb rows)
           (map f2 rows) (map f3 rows) (map f4 rows) (map f5 rows)
  = map (fun j =>
           Combined.mk (Price.buildingname (Joined.price j))
                       (Price.buildingaddress (Joined.price j))
                       (Price.region (Joined.price j))
                       (Joined.district j)
                       (f1 j)
                       (Coord.lat (Joined.coord j))
                       (Coord.lng (Joined.coord j))
                       (f2 j) (f3 j) (f4 j) (f5 j)
                       (Price.colour (Joined.price j))
                       (Python.format_thousands (f1 j))
                       (fst (fst (frgb j))) (snd (fst (frgb j)))
                       (snd (frgb j)))
        rows.
Proof.
  induction rows as [|j rows IH]; simpl.
  - reflexivity.
  - destruct (frgb j) as [[cr cg] cb]. simpl. now rewrite IH.
Qed.

Lemma astype_int_column (rows : list Joined.row) (f : Price.row -> cell)
      (col : list Z) :
  Pandas.astype_int (map (fun j => f (Joined.price j)) rows) = Ok col ->
  col = map (fun j => force 0 (Pandas.int_of_cell (f (Joined.price j)))) rows /\
  Forall (fun j => ~ raises (Pandas.int_of_cell (f (Joined.price j)))) rows.
Proof.
  unfold Pandas.astype_int. intros H.
  apply (mapM_Ok_inv _ 0) in H. destruct H as [-> HF].
  rewrite map_map. split; [reflexivity|].
  rewrite Forall_forall in *. intros j Hj. apply HF.
  now apply (in_map (fun j => f (Joined.price j))).
Qed.

Lemma Forall2_channels_In (rows : list Joined.row) :
  forall (rgb : list (Z * Z * Z)) (j : Joined.row),
    Forall2 (fun c x => channels c = Some x)
            (map (fun j => Price.colour (Joined.price j)) rows) rgb ->
    In j rows ->
    exists x, channels (Price.colour (Joined.price j)) = Some x.
Proof.
  induction rows as [|j0 rows IH]; intros rgb j H Hj.
  - contradiction.
  - simpl in H. inversion H as [|c x col rgb' Hc Hrest]; subst.
    destruct Hj as [-> | Hj]; [now exists x | now apply IH with rgb'].
Qed.

Lemma not_raises_Ok_ex {A : Type} (r : result A) :
  ~ raises r -> exists a, r = Ok a.
Proof.
  intros H. destruct (result_cases r) as [Hok | Hr]; [assumption|].
  contradiction.
Qed.

Lemma uncoercible_not_coercible (p : Price.row) :
  uncoercible p -> ~ coercible p.
Proof.
  intros U (C1 & C2 & C3 & C4 & C5 & [x Cx]).
  destruct U as [U | [U | [U | [U | [U | U]]]]].
  - destruct C1 as [z E]. now apply (not_raises_Ok _ _ E).
  - destruct C2 as [z E]. now apply (not_raises_Ok _ _ E).
  - destruct C3 as [z E]. now apply (not_raises_Ok _ _ E).
  - destruct C4 as [z E]. now apply (not_raises_Ok _ _ E).
  - destruct C5 as [z E]. now apply (not_raises_Ok _ _ E).
  - now apply (channels_well_formed _ _ Cx).
Qed.

(** When [combine_and_format_data] returns, the joined frame has a row,
    every row coerces, and the result is the joined frame formatted row by
    row. *)
Lemma combine_Ok_inv (prices_df : prices_frame)
      (coordinates_df : coordinates_frame) (district_df : district_frame)
      (t : result_frame) :
  combine_and_format_data prices_df coordinates_df district_df = Ok t ->
  t = map format_row (joined_frame prices_df coordinates_df district_df) /\
  joined_frame prices_df coordinates_df district_df <> [] /\
  Forall (fun j => coercible (Joined.price j))
         (joined_frame prices_df coordinates_df district_df).
Proof.
  unfold combine_and_format_data. cbv zeta.
  fold (joined_frame prices_df coordinates_df district_df).
  generalize (joined_frame prices_df coordinates_df district_df).
  intros joined H.
  apply bind_Ok_inv in H. destruct H as [c1 [H1 H]].
  apply bind_Ok_inv in H. destruct H as [sf [Hsf H]].
  apply bind_Ok_inv in H. destruct H as [rgb [Hrgb H]].
  apply bind_Ok_inv in H. destruct H as [c2 [H2 H]].
  apply bind_Ok_inv in H. destruct H as [c3 [H3 H]].
  apply bind_Ok_inv in H. destruct H as [c4 [H4 H]].
  apply bind_Ok_inv in H. destruct H as [c5 [H5 H]].
  inversion H; subst t; clear H.
  apply astype_int_column in H1, H2, H3, H4, H5.
  destruct H1 as [-> F1], H2 as [-> F2], H3 as [-> F3],
           H4 as [-> F4], H5 as [-> F5].
  assert (Hcol : bind (Pandas.frame_astype_int
                         (Pandas.str_split_expand
                            (map (fun j => Price.colour (Joined.price j))
                                 joined)))
                      Pandas.setitem3 = Ok rgb)
    by (rewrite Hsf; exact Hrgb).
  apply colours_Ok_inv in Hcol. destruct Hcol as [Hch Hne].
  pose proof (Forall2_channels_map _ _ Hch) as ->.
  rewrite map_map. split; [|split].
  - rewrite assemble_map. reflexivity.
  - intros E. apply Hne. now rewrite E.
  - rewrite Forall_forall in *. intros j Hj.
    repeat split.
    + apply not_raises_Ok_ex. now apply (F1 j).
    + apply not_raises_Ok_ex. now apply (F2 j).
    + apply not_raises_Ok_ex. now apply (F3 j).
    + apply not_raises_Ok_ex. now apply (F4 j).
    + apply not_raises_Ok_ex. now apply (F5 j).
    + eapply Forall2_channels_In; eassumption.
Qed.

Lemma joined_frame_In (prices_df : prices_frame)
      (coordinates_df : coordinates_frame) (district_df : district_frame)
      (j : Joined.row) :
  In j (joined_frame prices_df coordinates_df district_df) ->
  In (Joined.price j) prices_df /\
  In (Joined.coord j) coordinates_df /\
  Coord.index (Joined.coord j) = Price.buildingaddress (Joined.price j) /\
  match Joined.district j with
  | None => region_rows district_df (Price.region (Joined.price j)) = []
  | Some name =>
      exists d, In d district_df /\
                District.regions d = Some (Price.region (Joined.price j)) /\
                District.district d = name
  end.
Proof.
  unfold joined_frame. intros H. apply join_districts_In in H.
  destruct H as [H Hd]. apply join_coordinates_In in H.
  destruct H as (Hp & Hc & Hk). auto.
Qed.

Lemma joined_frame_keeps (prices_df : prices_frame)
      (coordinates_df : coordinates_frame) (district_df : district_frame)
      (p : Price.row) (c : Coord.row) :
  In p prices_df -> In c coordinates_df ->
  Coord.index c = Price.buildingaddress p ->
  exists j, In j (joined_frame prices_df coordinates_df district_df) /\
            Joined.price j = p /\ Joined.coord j = c /\
            (region_rows district_df (Price.region p) = [] ->
             Joined.district j = None).
Proof.
  intros Hp Hc Hk. unfold joined_frame. apply join_districts_keeps.
  apply join_coordinates_In. auto.
Qed.

Lemma region_rows_nil (district_df : district_frame) (region : string) :
  region_rows district_df region = [] <->
  forall d, In d district_df -> District.regions d <> Some region.
Proof.
  split.
  - intros E d Hd Hr.
    assert (H : In d (region_rows district_df region))
      by (apply region_rows_In; now split).
    rewrite E in H. contradiction.
  - intros H. destruct (region_rows district_df region) as [|d ds] eqn:E;
      [reflexivity|].
    assert (Hd : In d (region_rows district_df region))
      by (rewrite E; now left).
    apply region_rows_In in Hd. destruct Hd as [Hd Hr].
    exfalso. now apply (H d).
Qed.

(* ------------------------------------------------------------------ *)
(** ** Properties of the geocoder stage *)

Lemma queries_for_to_get (cache : coordinates_frame) (series : list string)
      (a : string) :
  queries_for a (map Geocode (buildings_to_get cache series)) =
  if Pandas.isin a (keys cache) then 0%nat else occurrences a series.
Proof.
  unfold queries_for, occurrences, buildings_to_get.
  induction series as [|x l IH]; simpl.
  - now destruct (Pandas.isin a (keys cache)).
  - destruct (Pandas.isin x (keys cache)) eqn:Ex; simpl;
      destruct (String.eqb a x) eqn:Eax; simpl; rewrite IH;
      destruct (Pandas.isin a (keys cache)) eqn:Ea; try reflexivity;
      apply String.eqb_eq in Eax; subst; congruence.
Qed.

(** C1.  The spec excludes an address whose geocoding query has no match
    from the coordinate table, the persisted cache and the combined table.
    The code records [(0, 0)] for it and then filters on a null latitude,
    which [0] is not: for a price file with the one building of
    [Sample.unknown], which the geocoder does not know, the address is in
    the table [get_coordinates] returns, in the [coordinates.json] that
    [main] writes, and in the table that is rendered. *)
Theorem unmatched_address_is_cached_and_rendered :
  Sample.gmaps_geocode "No Such Street" = [] /\
  fst (get_coordinates Sample.gmaps_geocode ["No Such Street"]
                       (Sample.with_prices [Sample.unknown] None))
  = Ok [Coord.mk "No Such Street" 0%float 0%float] /\
  coordinates_json
    (snd (main Sample.session_get Sample.hk11_links Sample.next_data
               Sample.gmaps_geocode
               (Sample.with_prices [Sample.unknown] None)))
  = Some [Coord.mk "No Such Street" 0%float 0%float] /\
  option_map (map Combined.buildingaddress)
    (district_html
       (snd (main Sample.session_get Sample.hk11_links Sample.next_data
                  Sample.gmaps_geocode
                  (Sample.with_prices [Sample.unknown] None))))
  = Some ["No Such Street"].
Proof.
  repeat split; vm_compute; reflexivity.
Qed.

(** C2, as stated, fails: when every address is already cached the
    returned cache is the loaded one, so its keys are no strict superset of
    the previous keys. *)
Lemma rerun_keys_not_strict_superset :
  exists returned w',
    get_coordinates Sample.gmaps_geocode ["1 Austin Road West"]
      (Sample.with_prices [Sample.icc] (Some [Sample.icc_coordinates]))
    = (Ok returned, w') /\
    ~ strict_superset
        (keys returned)
        (keys (loaded_coordinates
                 (Sample.with_prices [Sample.icc]
                                     (Some [Sample.icc_coordinates])))).
Proof.
  eexists. eexists. split.
  - rewrite get_coordinates_run. reflexivity.
  - intros [_ H]. apply H. apply incl_refl.
Qed.

(** C2, amended.  [get_coordinates] returns, and among the queries of the
    run there is none for an address that is a key of the loaded cache;
    every row of the loaded cache with a non-null latitude is a row of the
    returned cache, so the returned keys include those keys; when no query
    is issued the returned cache is the loaded one (the inclusion is not
    strict). *)
Theorem cached_address_not_requeried_and_kept
        (gmaps_geocode : string -> list (float * float))
        (series : list string) (w : world) (cache : coordinates_frame) :
  coordinates_json w = Some cache ->
  exists returned calls,
    get_coordinates gmaps_geocode series w = (Ok returned, log_all calls w) /\
    (forall a, In a (keys cache) -> ~ In (Geocode a) calls) /\
    (forall c, In c cache -> notna (Coord.lat c) = true -> In c returned) /\
    (forall c, In c cache -> notna (Coord.lat c) = true ->
               In (Coord.index c) (keys returned)) /\
    (calls = [] -> returned = cache).
Proof.
  intros Hfile.
  assert (Hl : loaded_coordinates w = cache)
    by (unfold loaded_coordinates; now rewrite Hfile).
  exists (coordinates_after gmaps_geocode cache series),
         (map Geocode (buildings_to_get cache series)).
  rewrite get_coordinates_run, Hl.
  split; [reflexivity|]. split; [|split; [|split]].
  - intros a Ha Hin. apply in_map_iff in Hin.
    destruct Hin as [a' [E Hin]]. inversion E; subst a'.
    apply buildings_to_get_In in Hin. now destruct Hin.
  - intros c Hc Hn. now apply coordinates_after_keeps.
  - intros c Hc Hn. unfold keys. apply in_map.
    now apply coordinates_after_keeps.
  - intros E. unfold coordinates_after.
    destruct (buildings_to_get cache series); [reflexivity | discriminate].
Qed.

Lemma cached_address_not_requeried_and_kept_witness :
  exists returned calls,
    get_coordinates Sample.gmaps_geocode
      ["1 Austin Road West"; "No Such Street"]
      (Sample.with_prices [Sample.icc; Sample.unknown]
                          (Some [Sample.icc_coordinates]))
    = (Ok returned,
       log_all calls (Sample.with_prices [Sample.icc; Sample.unknown]
                                         (Some [Sample.icc_coordinates]))) /\
    (forall a, In a (keys [Sample.icc_coordinates]) ->
               ~ In (Geocode a) calls) /\
    (forall c, In c [Sample.icc_coordinates] ->
               notna (Coord.lat c) = true -> In c returned) /\
    (forall c, In c [Sample.icc_coordinates] ->
               notna (Coord.lat c) = true ->
               In (Coord.index c) (keys returned)) /\
    (calls = [] -> returned = [Sample.icc_coordinates]).
Proof.
  apply (cached_address_not_requeried_and_kept
           Sample.gmaps_geocode
           ["1 Austin Road West"; "No Such Street"]
           (Sample.with_prices [Sample.icc; Sample.unknown]
                               (Some [Sample.icc_coordinates]))
           [Sample.icc_coordinates]).
  reflexivity.
Defined.

(** C3, as stated, fails: an address that occurs twice in the series and
    is not cached is queried twice. *)
Lemma duplicate_address_is_queried_twice :
  queries_for "No Such Street"
    (network (snd (get_coordinates Sample.gmaps_geocode
                     ["No Such Street"; "No Such Street"] Sample.fresh)))
  = 2%nat /\
  ~ (queries_for "No Such Street"
       (network (snd (get_coordinates Sample.gmaps_geocode
                        ["No Such Street"; "No Such Street"] Sample.fresh)))
     <= 1)%nat.
Proof.
  split.
  - vm_compute. reflexivity.
  - vm_compute. lia.
Qed.

(** C3, amended.  The calls of [get_coordinates] are exactly one geocoding
    query per occurrence in the series of an address that is no key of the
    loaded cache, in the order of the series: no query for a cached
    address, and as many queries for an uncached one as it has
    occurrences. *)
Theorem queries_are_uncached_occurrences
        (gmaps_geocode : string -> list (float * float))
        (series : list string) (w : world) :
  exists calls,
    snd (get_coordinates gmaps_geocode series w) = log_all calls w /\
    calls = map Geocode
                (filter (fun a => negb (Pandas.isin
                                          a (keys (loaded_coordinates w))))
                        series) /\
    forall a,
      queries_for a calls =
      if Pandas.isin a (keys (loaded_coordinates w))
      then 0%nat else occurrences a series.
Proof.
  exists (map Geocode (buildings_to_get (loaded_coordinates w) series)).
  rewrite get_coordinates_run. split; [reflexivity|]. split; [reflexivity|].
  intros a. apply queries_for_to_get.
Qed.

(* ------------------------------------------------------------------ *)
(** ** Properties of the combiner *)

(** The price of the spec's example, grouped by thousands. *)
Example format_thousands_6543210 :
  Python.format_thousands 6543210 = "6,543,210"%string.
Proof. reflexivity. Qed.

(** C4, as stated, fails: on empty tables the colour split has no column,
    which cannot be assigned to the three columns [r], [g] and [b], so the
    call raises instead of returning an empty table. *)
Lemma empty_tables_do_not_combine :
  combine_and_format_data [] [] [] = Raise ValueError /\
  combine_and_format_data [] [] [] <> Ok [].
Proof.
  split; [reflexivity | discriminate].
Qed.

(** C4, amended.  With an empty price table and an empty coordinate table
    [combine_and_format_data] raises, whatever the district table, and
    returns no table. *)
Theorem empty_tables_raise (district_df : district_frame) :
  combine_and_format_data [] [] district_df = Raise ValueError /\
  raises (combine_and_format_data [] [] district_df) /\
  forall t, combine_and_format_data [] [] district_df <> Ok t.
Proof.
  assert (E : combine_and_format_data [] [] district_df = Raise ValueError)
    by reflexivity.
  split; [exact E|]. split.
  - now exists ValueError.
  - intros t. rewrite E. discriminate.
Qed.

(** C5, as stated, fails: the inner join matches on the address only, so a
    coordinate row with a null latitude and longitude gives a combined row
    with a null latitude and longitude. *)
Lemma null_coordinates_reach_the_output :
  exists o t,
    combine_and_format_data [Sample.icc] [Sample.null_coordinates] [] = Ok t /\
    In o t /\
    notna (Combined.lat o) = false /\ notna (Combined.lng o) = false.
Proof.
  exists (format_row (Joined.mk Sample.icc Sample.null_coordinates None)).
  exists [format_row (Joined.mk Sample.icc Sample.null_coordinates None)].
  split; [vm_compute; reflexivity|].
  split; [now left|].
  split; reflexivity.
Qed.

(** C5, amended.  When [combine_and_format_data] returns a table, every row
    of it carries the address of a row of the coordinate table together
    with that row's [lat] and [lng]: these are non-null whenever the
    coordinate table has no null [lat] or [lng], the join itself does not
    test them.  Every price row whose address is a key of the coordinate
    table has a row in the result, also when its region has no entry in the
    district table, and then with a null district; a row of the result has
    a null district only if its region has no entry. *)
Theorem combined_rows_are_joined
        (prices_df : prices_frame) (coordinates_df : coordinates_frame)
        (district_df : district_frame) (t : result_frame) :
  combine_and_format_data prices_df coordinates_df district_df = Ok t ->
  (forall o, In o t ->
     exists c, In c coordinates_df /\
               Coord.index c = Combined.buildingaddress o /\
               Combined.lat o = Coord.lat c /\
               Combined.lng o = Coord.lng c) /\
  ((forall c, In c coordinates_df ->
              notna (Coord.lat c) = true /\ notna (Coord.lng c) = true) ->
   forall o, In o t ->
             notna (Combined.lat o) = true /\
             notna (Combined.lng o) = true) /\
  (forall p c,
     In p prices_df -> In c coordinates_df ->
     Coord.index c = Price.buildingaddress p ->
     exists o, In o t /\
               Combined.buildingaddress o = Price.buildingaddress p /\
               Combined.region o = Price.region p /\
               Combined.lat o = Coord.lat c /\
               Combined.lng o = Coord.lng c /\
               ((forall d, In d district_df ->
                           District.regions d <> Some (Price.region p)) ->
                Combined.district o = None)) /\
  (forall o, In o t -> Combined.district o = None ->
             forall d, In d district_df ->
                       District.regions d <> Some (Combined.region o)).
Proof.
  intros H. apply combine_Ok_inv in H. destruct H as (-> & _ & _).
  assert (Hrow : forall o,
             In o (map format_row
                       (joined_frame prices_df coordinates_df district_df)) ->
             exists c, In c coordinates_df /\
                       Coord.index c = Combined.buildingaddress o /\
                       Combined.lat o = Coord.lat c /\
                       Combined.lng o = Coord.lng c).
  { intros o Ho. apply in_map_iff in Ho. destruct Ho as [j [<- Hj]].
    apply joined_frame_In in Hj. destruct Hj as (_ & Hc & Hk & _).
    exists (Joined.coord j). simpl. auto. }
  split; [exact Hrow|]. split; [|split].
  - intros Hnn o Ho. destruct (Hrow o Ho) as [c (Hc & _ & -> & ->)].
    now apply Hnn.
  - intros p c Hp Hc Hk.
    destruct (joined_frame_keeps prices_df coordinates_df district_df
                                 p c Hp Hc Hk) as [j (Hj & <- & <- & Hd)].
    exists (format_row j). split; [now apply in_map|].
    simpl. repeat split. intros Hno. apply Hd. now apply region_rows_nil.
  - intros o Ho Hnone. apply in_map_iff in Ho. destruct Ho as [j [<- Hj]].
    apply joined_frame_In in Hj. destruct Hj as (_ & _ & _ & Hd).
    simpl in Hnone. rewrite Hnone in Hd. simpl.
    now apply region_rows_nil.
Qed.

Lemma combined_rows_are_joined_witness :
  exists c,
    In c [Sample.icc_coordinates] /\
    Coord.index c
    = Combined.buildingaddress
        (format_row (Joined.mk Sample.icc Sample.icc_coordinates None)) /\
    Combined.lat (format_row (Joined.mk Sample.icc Sample.icc_coordinates None))
    = Coord.lat c /\
    Combined.lng (format_row (Joined.mk Sample.icc Sample.icc_coordinates None))
    = Coord.lng c.
Proof.
  assert (H : combine_and_format_data
                [Sample.icc; Sample.unknown] [Sample.icc_coordinates] []
              = Ok [format_row
                      (Joined.mk Sample.icc Sample.icc_coordinates None)])
    by (vm_compute; reflexivity).
  destruct (combined_rows_are_joined
              [Sample.icc; Sample.unknown] [Sample.icc_coordinates] []
              [format_row (Joined.mk Sample.icc Sample.icc_coordinates None)]
              H) as [Hrow _].
  apply Hrow. simpl. left. reflexivity.
Defined.

(** C6, as stated, fails for a row that the inner join drops: a price row
    with a price that is no integer, at an address that is no key of the
    coordinate table, never reaches the coercions, and the other rows are
    returned. *)
Lemma uncoercible_row_without_coordinates_is_dropped :
  In Sample.garbled_unknown [Sample.icc; Sample.garbled_unknown] /\
  uncoercible Sample.garbled_unknown /\
  combine_and_format_data [Sample.icc; Sample.garbled_unknown]
                          [Sample.icc_coordinates] []
  = Ok [format_row (Joined.mk Sample.icc Sample.icc_coordinates None)] /\
  ~ raises (combine_and_format_data [Sample.icc; Sample.garbled_unknown]
                                    [Sample.icc_coordinates] []).
Proof.
  split; [simpl; auto|].
  split; [left; exists ValueError; reflexivity|].
  assert (E : combine_and_format_data [Sample.icc; Sample.garbled_unknown]
                                      [Sample.icc_coordinates] []
              = Ok [format_row
                      (Joined.mk Sample.icc Sample.icc_coordinates None)])
    by (vm_compute; reflexivity).
  split; [exact E|].
  now apply not_raises_Ok with
    [format_row (Joined.mk Sample.icc Sample.icc_coordinates None)].
Qed.

(** C6, amended.  If a price row that the inner join keeps (its address is
    a key of the coordinate table) has a [medianpredprice],
    [transactionscount], [built], [numberofunits] or [numberoffloors] that
    does not coerce to an integer, or a colour that is no string of three
    comma-separated integers, then [combine_and_format_data] raises: it
    returns no table, not even the rows that would coerce. *)
Theorem uncoercible_row_aborts
        (prices_df : prices_frame) (coordinates_df : coordinates_frame)
        (district_df : district_frame) (p : Price.row) (c : Coord.row) :
  In p prices_df -> In c coordinates_df ->
  Coord.index c = Price.buildingaddress p ->
  uncoercible p ->
  raises (combine_and_format_data prices_df coordinates_df district_df) /\
  forall t, combine_and_format_data prices_df coordinates_df district_df
            <> Ok t.
Proof.
  intros Hp Hc Hk Hbad.
  assert (Hno : forall t,
             combine_and_format_data prices_df coordinates_df district_df
             <> Ok t).
  { intros t H. apply combine_Ok_inv in H. destruct H as (_ & _ & HF).
    destruct (joined_frame_keeps prices_df coordinates_df district_df
                                 p c Hp Hc Hk) as [j (Hj & Hjp & _)].
    rewrite Forall_forall in HF. specialize (HF j Hj). rewrite Hjp in HF.
    now apply (uncoercible_not_coercible p). }
  split; [|exact Hno].
  destruct (result_cases
              (combine_and_format_data prices_df coordinates_df district_df))
    as [[t Ht] | Hr]; [|assumption].
  exfalso. now apply (Hno t).
Qed.

Lemma uncoercible_row_aborts_witness :
  raises (combine_and_format_data
            [Sample.icc; Sample.garbled] [Sample.icc_coordinates] []).
Proof.
  apply (uncoercible_row_aborts
           [Sample.icc; Sample.garbled] [Sample.icc_coordinates] []
           Sample.garbled Sample.icc_coordinates).
  - simpl. right. left. reflexivity.
  - simpl. left. reflexivity.
  - reflexivity.
  - left. exists ValueError. reflexivity.
Defined.

(** C9.  In a table that [combine_and_format_data] returns, the colour of
    every row is a string whose three comma-separated fields, in order, are
    the integers [r], [g] and [b] of the row; a row of colour
    ["10,200,30"] has [r = 10], [g = 200] and [b = 30].  The row and its
    colour are those of a price row. *)
Theorem colour_is_split_into_channels
        (prices_df : prices_frame) (coordinates_df : coordinates_frame)
        (district_df : district_frame) (t : result_frame)
        (o : Combined.row) :
  combine_and_format_data prices_df coordinates_df district_df = Ok t ->
  In o t ->
  (exists s x y z,
      Combined.colour o = VStr s /\
      Python.split ","%char s = [x; y; z] /\
      Python.int_of_str x = Some (Combined.r o) /\
      Python.int_of_str y = Some (Combined.g o) /\
      Python.int_of_str z = Some (Combined.b o)) /\
  (Combined.colour o = VStr "10,200,30" ->
   Combined.r o = 10 /\ Combined.g o = 200 /\ Combined.b o = 30) /\
  (exists p, In p prices_df /\
             Price.buildingaddress p = Combined.buildingaddress o /\
             Price.colour p = Combined.colour o).
Proof.
  intros H Ho. apply combine_Ok_inv in H. destruct H as (-> & _ & HF).
  apply in_map_iff in Ho. destruct Ho as [j [<- Hj]].
  rewrite Forall_forall in HF. specialize (HF j Hj).
  destruct HF as (_ & _ & _ & _ & _ & [rgb Hrgb]).
  pose proof (joined_frame_In _ _ _ _ Hj) as (Hp & _).
  assert (Hsplit : exists s x y z,
             Price.colour (Joined.price j) = VStr s /\
             Python.split ","%char s = [x; y; z] /\
             Python.int_of_str x = Some (fst (fst rgb)) /\
             Python.int_of_str y = Some (snd (fst rgb)) /\
             Python.int_of_str z = Some (snd rgb))
    by (now apply channels_inv).
  unfold format_row. cbn [Combined.colour Combined.r Combined.g Combined.b
                            Combined.buildingaddress].
  rewrite Hrgb. split; [exact Hsplit|]. split.
  - intros E. rewrite E in Hrgb. vm_compute in Hrgb.
    inversion Hrgb; subst rgb. simpl. auto.
  - exists (Joined.price j). auto.
Qed.

Lemma colour_is_split_into_channels_witness :
  Combined.colour
    (format_row (Joined.mk Sample.icc Sample.icc_coordinates None))
  = VStr "10,200,30" /\
  Combined.r (format_row (Joined.mk Sample.icc Sample.icc_coordinates None))
  = 10 /\
  Combined.g (format_row (Joined.mk Sample.icc Sample.icc_coordinates None))
  = 200 /\
  Combined.b (format_row (Joined.mk Sample.icc Sample.icc_coordinates None))
  = 30.
Proof.
  split; [reflexivity|].
  apply (colour_is_split_into_channels
           [Sample.icc] [Sample.icc_coordinates] []
           [format_row (Joined.mk Sample.icc Sample.icc_coordinates None)]
           (format_row (Joined.mk Sample.icc Sample.icc_coordinates None))).
  - vm_compute. reflexivity.
  - simpl. left. reflexivity.
  - reflexivity.
Defined.

(* ------------------------------------------------------------------ *)
(** ** Properties of the price collector and of the district resolver *)

Section Collector.

Variable session_get : string -> response.
Variable hk11_links : string -> result (list string).
Variable next_data : string -> result pageProps.
Variable gmaps_geocode : string -> list (float * float).

Lemma get_prices_cached (w : world) (t : prices_frame) :
  prices_json w = Some t ->
  get_prices session_get hk11_links next_data w = (Ok t, w).
Proof.
  intros H. unfold get_prices, except_FileNotFoundError, read_json.
  now rewrite H.
Qed.

(** [main] stage by stage, once the prices are collected. *)
Lemma main_run (w w1 : world) (prices_df : prices_frame) :
  get_prices session_get hk11_links next_data w = (Ok prices_df, w1) ->
  main session_get hk11_links next_data gmaps_geocode w =
  match prices_df with
  | [] => (Raise KeyError, write_prices prices_df w1)
  | _ :: _ =>
      let series := map Price.buildingaddress prices_df in
      let coordinates_df :=
        coordinates_after gmaps_geocode (loaded_coordinates w1) series in
      let w3 := log_all (map Geocode
                             (buildings_to_get (loaded_coordinates w1) series))
                        (write_prices prices_df w1) in
      if Pandas.is_unique (keys coordinates_df)
      then match districts_json w1 with
           | None => (Raise FileNotFoundError,
                      write_coordinates coordinates_df w3)
           | Some file =>
               match regions_column file with
               | Raise e => (Raise e, write_coordinates coordinates_df w3)
               | Ok mapping =>
                   match combine_and_format_data
                           prices_df coordinates_df
                           (flat_map Pandas.explode mapping) with
                   | Ok result_df =>
                       (Ok tt,
                        write_html result_df
                                   (write_coordinates coordinates_df w3))
                   | Raise e =>
                       (Raise e, write_coordinates coordinates_df w3)
                   end
               end
           end
      else (Raise ValueError, w3)
  end.
Proof.
  intros H. unfold main. unfold bind_io at 1. rewrite H.
  unfold bind_io at 1. unfold modify at 1.
  unfold bind_io at 1. unfold buildingaddress_column at 1.
  destruct prices_df as [|p prices_df]; [reflexivity|].
  cbv zeta. set (prices := p :: prices_df). unfold ret at 1.
  unfold bind_io at 1. rewrite get_coordinates_run.
  change (loaded_coordinates (write_prices prices w1))
    with (loaded_coordinates w1).
  set (coordinates_df := coordinates_after gmaps_geocode
                           (loaded_coordinates w1)
                           (map Price.buildingaddress prices)).
  set (calls := map Geocode _).
  unfold bind_io at 1, coordinates_to_json. fold (keys coordinates_df).
  destruct (Pandas.is_unique (keys coordinates_df)); [|reflexivity].
  unfold modify at 1.
  unfold bind_io at 1, get_districts, read_json.
  unfold bind_io at 1. cbn [districts_json write_coordinates log_all].
  change (districts_json (write_prices prices w1))
    with (districts_json w1).
  destruct (districts_json w1) as [file|]; [|reflexivity].
  unfold bind_io at 1, lift at 1.
  destruct (regions_column file) as [mapping|e]; [|reflexivity].
  unfold ret. unfold bind_io, lift.
  destruct (combine_and_format_data prices coordinates_df
                                    (flat_map Pandas.explode mapping));
    reflexivity.
Qed.

Lemma main_no_prices (w w1 : world) (e : exception) :
  get_prices session_get hk11_links next_data w = (Raise e, w1) ->
  main session_get hk11_links next_data gmaps_geocode w = (Raise e, w1).
Proof.
  intros H. unfold main. unfold bind_io at 1. now rewrite H.
Qed.

(** With a price file, the calls of a whole run are the geocoding queries
    of [get_coordinates] and nothing else. *)
Lemma main_network_cached (w : world) (t : prices_frame) :
  prices_json w = Some t ->
  network (snd (main session_get hk11_links next_data gmaps_geocode w)) =
  network w ++
  map Geocode (buildings_to_get (loaded_coordinates w)
                                (map Price.buildingaddress t)).
Proof.
  intros H. rewrite (main_run w w t (get_prices_cached w t H)).
  destruct t as [|p t]; [simpl; now rewrite app_nil_r|].
  cbv zeta.
  destruct (Pandas.is_unique _); [|reflexivity].
  destruct (districts_json w) as [file|]; [|reflexivity].
  destruct (regions_column file) as [mapping|e]; [|reflexivity].
  destruct (combine_and_format_data _ _ _); reflexivity.
Qed.

End Collector.

(** C7.  If the price file exists, [get_prices] returns its table as it is
    and leaves the world as it was: nothing is fetched and nothing is
    merged.  In a whole run from such a world every call that is logged is
    a geocoding query, none is a page fetch. *)
Theorem persisted_prices_returned_without_fetch
        (session_get : string -> response)
        (hk11_links : string -> result (list string))
        (next_data : string -> result pageProps)
        (gmaps_geocode : string -> list (float * float))
        (w : world) (t : prices_frame) :
  prices_json w = Some t ->
  get_prices session_get hk11_links next_data w = (Ok t, w) /\
  exists calls,
    network (snd (main session_get hk11_links next_data gmaps_geocode w))
    = network w ++ calls /\
    forall url, ~ In (HttpGet url) calls.
Proof.
  intros H. split; [now apply get_prices_cached|].
  exists (map Geocode (buildings_to_get (loaded_coordinates w)
                                        (map Price.buildingaddress t))).
  split; [now apply main_network_cached|].
  intros url Hin. apply in_map_iff in Hin.
  destruct Hin as [a [E _]]. discriminate.
Qed.

Lemma persisted_prices_returned_without_fetch_witness :
  get_prices Sample.session_get Sample.hk11_links Sample.next_data
             (Sample.with_prices [Sample.icc] None)
  = (Ok [Sample.icc], Sample.with_prices [Sample.icc] None).
Proof.
  apply (persisted_prices_returned_without_fetch
           Sample.session_get Sample.hk11_links Sample.next_data
           Sample.gmaps_geocode
           (Sample.with_prices [Sample.icc] None) [Sample.icc]).
  reflexivity.
Defined.



Lemma explode_In (row : string * list string) (r name : string) :
  In (District.mk (Some r) name) (Pandas.explode row) <->
  name = fst row /\ In r (snd row).
Proof.
  unfold Pandas.explode. destruct (snd row) as [|r0 rs] eqn:E.
  - simpl. split.
    + intros [H | []]. discriminate.
    + intros [_ []].
  - rewrite in_map_iff. split.
    + intros [x [Hx Hin]]. inversion Hx; subst. auto.
    + intros [-> Hin]. now exists r.
Qed.








(* ------------------------------------------------------------------ *)
(** ** The live price collection *)

Section LiveCollector.

Variable session_get : string -> response.
Variable hk11_links : string -> result (list string).
Variable next_data : string -> result pageProps.

Lemma log_all_app (cs cs' : list call) (w : world) :
  log_all cs' (log_all cs w) = log_all (cs ++ cs') w.
Proof.
  unfold log_all; simpl. now rewrite <- app_assoc.
Qed.

(** The loop gets past a prefix of pages that pass, one fetch per page,
    adding the buildings of each. *)
Lemma get_neighbourhoods_app (pre rest : list string) :
  forall (acc : prices_frame) (w : world),
    (forall link, In link pre -> page_passes session_get next_data link) ->
    get_neighbourhoods session_get next_data (pre ++ rest) acc w =
    get_neighbourhoods session_get next_data rest
      (acc ++ flat_map (page_rows session_get next_data) pre)
      (log_all (map (fun link => HttpGet (page_url link)) pre) w).
Proof.
  induction pre as [|link pre IH]; intros acc w Hpass.
  - simpl. now rewrite app_nil_r, log_all_nil.
  - assert (Hlink : page_passes session_get next_data link)
      by (apply Hpass; now left).
    assert (Hpre : forall l, In l pre -> page_passes session_get next_data l)
      by (intros l Hl; apply Hpass; now right).
    cbn [app get_neighbourhoods flat_map map].
    unfold bind_io at 1, get at 1. fold (page_url link).
    unfold page_rows at 1.
    destruct (status_code (session_get (page_url link)) =? 200) eqn:Est;
      cbn [negb].
    + destruct Hlink as [Hne | [data Hdata]].
      * apply Z.eqb_eq in Est. contradiction.
      * unfold bind_io at 1, lift at 1. rewrite Hdata.
        destruct data as [|b].
        -- rewrite IH by assumption. simpl. now rewrite log_all_cons.
        -- rewrite IH by assumption. rewrite log_all_cons.
           now rewrite <- app_assoc.
    + rewrite IH by assumption. simpl. now rewrite log_all_cons.
Qed.

(** Whatever happens, the loop only appends page fetches to the log. *)
Lemma get_neighbourhoods_logs (links : list string) :
  forall (acc : prices_frame) (w : world),
  exists urls,
    snd (get_neighbourhoods session_get next_data links acc w)
    = log_all (map HttpGet urls) w.
Proof.
  induction links as [|link links IH]; intros acc w.
  - exists []. simpl. now rewrite log_all_nil.
  - cbn [get_neighbourhoods]. unfold bind_io at 1, get at 1.
    destruct (negb (status_code (session_get (base_url ++ link)%string)
                    =? 200)).
    + destruct (IH acc (log (HttpGet (base_url ++ link)%string) w))
        as [urls E].
      exists ((base_url ++ link)%string :: urls).
      rewrite E. simpl. now rewrite log_all_cons.
    + unfold bind_io at 1, lift at 1.
      destruct (next_data (text (session_get (base_url ++ link)%string)))
        as [[|b]|e].
      * destruct (IH acc (log (HttpGet (base_url ++ link)%string) w))
          as [urls E].
        exists ((base_url ++ link)%string :: urls).
        rewrite E. simpl. now rewrite log_all_cons.
      * destruct (IH (acc ++ b) (log (HttpGet (base_url ++ link)%string) w))
          as [urls E].
        exists ((base_url ++ link)%string :: urls).
        rewrite E. simpl. now rewrite log_all_cons.
      * exists [(base_url ++ link)%string]. reflexivity.
Qed.

Lemma get_prices_live (w : world) :
  prices_json w = None ->
  get_prices session_get hk11_links next_data w =
  match hk11_links (text (session_get index_url)) with
  | Ok links =>
      get_neighbourhoods session_get next_data links []
                         (log (HttpGet index_url) w)
  | Raise e => (Raise e, log (HttpGet index_url) w)
  end.
Proof.
  intros H. unfold get_prices, except_FileNotFoundError, read_json.
  rewrite H. unfold bind_io at 1, get at 1. fold index_url.
  unfold bind_io at 1, lift at 1.
  now destruct (hk11_links (text (session_get index_url))).
Qed.

End LiveCollector.

(** X1.  Without a price file, when the index page yields its links and
    every neighbourhood page passes (it is not answered with 200, or its
    data block parses), [get_prices] returns the buildings of the pages
    answered with 200 that are no error page, in the order of the links, and
    logs one fetch of the index followed by one fetch per link. *)
Theorem live_collection_concatenates_pages
        (session_get : string -> response)
        (hk11_links : string -> result (list string))
        (next_data : string -> result pageProps)
        (w : world) (links : list string) :
  prices_json w = None ->
  hk11_links (text (session_get index_url)) = Ok links ->
  (forall link, In link links -> page_passes session_get next_data link) ->
  get_prices session_get hk11_links next_data w =
  (Ok (flat_map (page_rows session_get next_data) links),
   log_all (HttpGet index_url
            :: map (fun link => HttpGet (page_url link)) links) w).
Proof.
  intros Hfile Hlinks Hpass.
  rewrite get_prices_live by assumption. rewrite Hlinks.
  rewrite <- (app_nil_r links) at 1.
  rewrite get_neighbourhoods_app by assumption.
  simpl. unfold ret. now rewrite log_all_cons.
Qed.

Lemma live_collection_concatenates_pages_witness :
  get_prices Site.session_get Site.hk11_links Site.next_data Site.offline =
  (Ok [Sample.icc; Sample.unknown],
   log_all [HttpGet index_url; HttpGet (page_url "/kowloon");
            HttpGet (page_url "/down"); HttpGet (page_url "/gone")]
           Site.offline).
Proof.
  apply (live_collection_concatenates_pages
           Site.session_get Site.hk11_links Site.next_data Site.offline
           ["/kowloon"; "/down"; "/gone"]).
  - reflexivity.
  - reflexivity.
  - intros link [<- | [<- | [<- | []]]].
    + right. exists (buildings [Sample.icc; Sample.unknown]). reflexivity.
    + left. vm_compute. discriminate.
    + right. exists statusCode. reflexivity.
Defined.

(** X2.  Without a price file, a neighbourhood page that is answered with
    200 but whose data block does not parse aborts the collection: when the
    pages before it pass, [get_prices] raises the parser's exception, the
    buildings collected so far are lost, and the pages after it are not
    fetched. *)
Theorem unparsable_page_aborts_collection
        (session_get : string -> response)
        (hk11_links : string -> result (list string))
        (next_data : string -> result pageProps)
        (w : world) (before after : list string) (link : string)
        (e : exception) :
  prices_json w = None ->
  hk11_links (text (session_get index_url)) = Ok (before ++ link :: after) ->
  (forall l, In l before -> page_passes session_get next_data l) ->
  status_code (session_get (page_url link)) = 200 ->
  next_data (text (session_get (page_url link))) = Raise e ->
  get_prices session_get hk11_links next_data w =
  (Raise e,
   log_all (HttpGet index_url
            :: map (fun l => HttpGet (page_url l)) (before ++ [link])) w).
Proof.
  intros Hfile Hlinks Hpass Hst Hdata.
  rewrite get_prices_live by assumption. rewrite Hlinks.
  rewrite get_neighbourhoods_app by assumption.
  cbn [get_neighbourhoods]. unfold bind_io at 1, get at 1.
  fold (page_url link). rewrite Hst. cbn [Z.eqb Pos.eqb negb].
  unfold bind_io at 1, lift at 1. rewrite Hdata.
  rewrite map_app. simpl.
  rewrite <- log_all_cons with (cs := map _ before ++ _).
  rewrite <- log_all_app. reflexivity.
Qed.

Lemma unparsable_page_aborts_collection_witness :
  get_prices Site.session_get2 Site.hk11_links Site.next_data Site.offline =
  (Raise AttributeError,
   log_all [HttpGet index_url; HttpGet (page_url "/kowloon");
            HttpGet (page_url "/broken")]
           Site.offline).
Proof.
  apply (unparsable_page_aborts_collection
           Site.session_get2 Site.hk11_links Site.next_data Site.offline
           ["/kowloon"] ["/gone"] "/broken" AttributeError).
  - reflexivity.
  - reflexivity.
  - intros l [<- | []].
    right. exists (buildings [Sample.icc; Sample.unknown]). reflexivity.
  - reflexivity.
  - reflexivity.
Defined.

Lemma fetches_hold_no_query (urls : list string) (a : string) :
  ~ In (Geocode a) (map HttpGet urls).
Proof.
  intros Hin. apply in_map_iff in Hin. destruct Hin as [u [Hu _]].
  discriminate.
Qed.

(** Whatever [get_prices] returns, it only appended page fetches to the
    log. *)
Lemma get_prices_logs
      (session_get : string -> response)
      (hk11_links : string -> result (list string))
      (next_data : string -> result pageProps)
      (w : world) :
  exists urls,
    snd (get_prices session_get hk11_links next_data w)
    = log_all (map HttpGet urls) w /\
    (prices_json w <> None -> urls = []).
Proof.
  destruct (prices_json w) as [t|] eqn:Hfile.
  - exists []. rewrite (get_prices_cached _ _ _ w t Hfile). simpl.
    rewrite log_all_nil. split; auto.
  - rewrite get_prices_live by assumption.
    destruct (hk11_links (text (session_get index_url))) as [links|e].
    + destruct (get_neighbourhoods_logs session_get next_data links []
                  (log (HttpGet index_url) w)) as [urls E].
      exists (index_url :: urls). rewrite E.
      change (map HttpGet (index_url :: urls))
        with (HttpGet index_url :: map HttpGet urls).
      rewrite log_all_cons.
      split; [reflexivity|]. intros Hne. now contradiction Hne.
    + exists [index_url]. cbn [snd].
      split; [reflexivity|]. intros Hne. now contradiction Hne.
Qed.

(** X3.  [get_prices] writes no file and issues no geocoding query:
    whatever it returns, the world it leaves differs from the one it found
    by page fetches appended to the log, and by none at all when the price
    file exists. *)
Theorem get_prices_only_fetches_pages
        (session_get : string -> response)
        (hk11_links : string -> result (list string))
        (next_data : string -> result pageProps)
        (w : world) :
  exists urls,
    snd (get_prices session_get hk11_links next_data w)
    = log_all (map HttpGet urls) w /\
    same_files w (snd (get_prices session_get hk11_links next_data w)) /\
    (forall a, ~ In (Geocode a) (map HttpGet urls)) /\
    (prices_json w <> None -> urls = []).
Proof.
  destruct (get_prices_logs session_get hk11_links next_data w)
    as [urls [E Hnone]].
  exists urls. split; [exact E|]. split; [|split].
  - rewrite E. repeat split.
  - intros a. apply fetches_hold_no_query.
  - exact Hnone.
Qed.

(* ------------------------------------------------------------------ *)
(** ** When the combiner returns, and how many rows *)

Lemma mapM_Ok_intro {A B : Type} (f : A -> result B) (d : B) (l : list A) :
  Forall (fun x => exists y, f x = Ok y) l ->
  mapM f l = Ok (map (fun x => force d (f x)) l).
Proof.
  induction 1 as [|x l [y Hy] _ IH]; simpl.
  - reflexivity.
  - rewrite Hy, IH. reflexivity.
Qed.

Lemma astype_int_column_intro (rows : list Joined.row)
      (f : Price.row -> cell) :
  Forall (fun j => exists z, Pandas.int_of_cell (f (Joined.price j)) = Ok z)
         rows ->
  Pandas.astype_int (map (fun j => f (Joined.price j)) rows)
  = Ok (map (fun j => force 0 (Pandas.int_of_cell (f (Joined.price j)))) rows).
Proof.
  intros H. unfold Pandas.astype_int.
  rewrite (mapM_Ok_intro _ 0).
  - now rewrite map_map.
  - rewrite Forall_forall in *. intros c Hc. apply in_map_iff in Hc.
    destruct Hc as [j [<- Hj]]. now apply H.
Qed.

Lemma channels_fields (c : cell) (x : Z * Z * Z) :
  channels c = Some x ->
  List.length (Pandas.cons_row (Pandas.str_split c)) = 3%nat /\
  mapM Pandas.int_of_field (Pandas.pad 3 (Pandas.cons_row (Pandas.str_split c)))
  = Ok [fst (fst x); snd (fst x); snd x].
Proof.
  destruct c as [|z|f|s]; try discriminate.
  unfold channels, Pandas.str_split, Pandas.cons_row, Pandas.pad.
  destruct (Python.split ","%char s) as [|f1 [|f2 [|f3 [|f4 fs]]]];
    try discriminate.
  simpl. unfold Pandas.int_of_field.
  destruct (Pandas.int64_of_str f1); [|discriminate].
  destruct (Pandas.int64_of_str f2); [|discriminate].
  destruct (Pandas.int64_of_str f3); [|discriminate].
  intros H. inversion H; subst x. simpl. auto.
Qed.

Lemma list_max_all_three (l : list nat) :
  l <> [] -> Forall (fun n => n = 3%nat) l -> list_max l = 3%nat.
Proof.
  intros Hne H. induction H as [|n l -> _ IH]; [congruence|].
  destruct l as [|m l].
  - reflexivity.
  - cbn [list_max fold_right] in *. rewrite IH by discriminate. reflexivity.
Qed.

Lemma colours_Ok_intro (col : list cell) :
  col <> [] ->
  Forall (fun c => exists x, channels c = Some x) col ->
  bind (Pandas.frame_astype_int (Pandas.str_split_expand col)) Pandas.setitem3
  = Ok (map (fun c => match channels c with
                      | Some x => x
                      | None => (0, 0, 0)
                      end) col).
Proof.
  intros Hne Hall.
  assert (Hw : list_max (map (@List.length _)
                             (map (fun c => Pandas.cons_row (Pandas.str_split c))
                                  col)) = 3%nat).
  { apply list_max_all_three.
    - destruct col; [congruence | discriminate].
    - rewrite Forall_forall in *. intros n Hn.
      apply in_map_iff in Hn. destruct Hn as [fs [<- Hfs]].
      apply in_map_iff in Hfs. destruct Hfs as [c [<- Hc]].
      destruct (Hall c Hc) as [x Hx]. now apply (channels_fields c x). }
  unfold Pandas.str_split_expand, Pandas.frame_astype_int.
  cbn [Pandas.rows Pandas.width]. rewrite Hw.
  assert (Hrows :
            mapM (mapM Pandas.int_of_field)
                 (map (Pandas.pad 3)
                      (map (fun c => Pandas.cons_row (Pandas.str_split c)) col))
            = Ok (map (fun c => match channels c with
                                | Some x => [fst (fst x); snd (fst x); snd x]
                                | None => []
                                end) col)).
  { clear Hne Hw. induction Hall as [|c col [x Hx] _ IH]; simpl.
    - reflexivity.
    - destruct (channels_fields c x Hx) as [_ E]. rewrite E. simpl.
      rewrite IH. simpl. now rewrite Hx. }
  rewrite Hrows. simpl. unfold Pandas.setitem3.
  cbn [Pandas.rows Pandas.width Nat.eqb].
  clear Hne Hw Hrows. induction Hall as [|c col [x Hx] _ IH]; simpl.
  - reflexivity.
  - rewrite Hx. simpl. rewrite IH. simpl.
    now destruct x as [[cr cg] cb].
Qed.

(** The converse of [combine_Ok_inv]. *)
Lemma combine_Ok_intro (prices_df : prices_frame)
      (coordinates_df : coordinates_frame) (district_df : district_frame) :
  joined_frame prices_df coordinates_df district_df <> [] ->
  Forall (fun j => coercible (Joined.price j))
         (joined_frame prices_df coordinates_df district_df) ->
  combine_and_format_data prices_df coordinates_df district_df
  = Ok (map format_row (joined_frame prices_df coordinates_df district_df)).
Proof.
  unfold combine_and_format_data. cbv zeta.
  fold (joined_frame prices_df coordinates_df district_df).
  generalize (joined_frame prices_df coordinates_df district_df).
  intros joined Hne Hall.
  assert (H1 : Forall (fun j => exists z, Pandas.int_of_cell
                         (Price.medianpredprice (Joined.price j)) = Ok z)
                      joined)
    by (eapply Forall_impl; [|exact Hall]; intros j Hj; apply Hj).
  assert (H2 : Forall (fun j => exists z, Pandas.int_of_cell
                         (Price.transactionscount (Joined.price j)) = Ok z)
                      joined)
    by (eapply Forall_impl; [|exact Hall]; intros j Hj; apply Hj).
  assert (H3 : Forall (fun j => exists z, Pandas.int_of_cell
                         (Price.built (Joined.price j)) = Ok z) joined)
    by (eapply Forall_impl; [|exact Hall]; intros j Hj; apply Hj).
  assert (H4 : Forall (fun j => exists z, Pandas.int_of_cell
                         (Price.numberofunits (Joined.price j)) = Ok z)
                      joined)
    by (eapply Forall_impl; [|exact Hall]; intros j Hj; apply Hj).
  assert (H5 : Forall (fun j => exists z, Pandas.int_of_cell
                         (Price.numberoffloors (Joined.price j)) = Ok z)
                      joined)
    by (eapply Forall_impl; [|exact Hall]; intros j Hj; apply Hj).
  assert (Hc : Forall (fun c => exists x, channels c = Some x)
                      (map (fun j => Price.colour (Joined.price j)) joined)).
  { rewrite Forall_forall in *. intros c Hin. apply in_map_iff in Hin.
    destruct Hin as [j [<- Hj]]. apply (Hall j Hj). }
  rewrite (astype_int_column_intro joined Price.medianpredprice H1).
  cbn [bind].
  assert (Hcol := colours_Ok_intro
                    (map (fun j => Price.colour (Joined.price j)) joined)).
  assert (Hne' : map (fun j => Price.colour (Joined.price j)) joined <> [])
    by (destruct joined; [congruence | discriminate]).
  specialize (Hcol Hne' Hc).
  apply bind_Ok_inv in Hcol. destruct Hcol as [sf [Hsf Hset]].
  rewrite Hsf. cbn [bind]. rewrite Hset. cbn [bind].
  rewrite (astype_int_column_intro joined Price.transactionscount H2).
  rewrite (astype_int_column_intro joined Price.built H3).
  rewrite (astype_int_column_intro joined Price.numberofunits H4).
  rewrite (astype_int_column_intro joined Price.numberoffloors H5).
  cbn [bind]. rewrite map_map. rewrite assemble_map. reflexivity.
Qed.

Lemma joined_frame_nonempty (prices_df : prices_frame)
      (coordinates_df : coordinates_frame) (district_df : district_frame) :
  joined_frame prices_df coordinates_df district_df <> [] <->
  exists p, In p prices_df /\
            In (Price.buildingaddress p) (keys coordinates_df).
Proof.
  split.
  - destruct (joined_frame prices_df coordinates_df district_df)
      as [|j l] eqn:E; [congruence|]. intros _.
    assert (Hj : In j (joined_frame prices_df coordinates_df district_df))
      by (rewrite E; now left).
    apply joined_frame_In in Hj. destruct Hj as (Hp & Hc & Hk & _).
    exists (Joined.price j). split; [assumption|].
    rewrite <- Hk. unfold keys. now apply in_map.
  - intros [p [Hp Hk]] E. unfold keys in Hk. apply in_map_iff in Hk.
    destruct Hk as [c [Hk Hc]].
    destruct (joined_frame_keeps prices_df coordinates_df district_df
                                 p c Hp Hc Hk) as [j [Hj _]].
    rewrite E in Hj. contradiction.
Qed.

Lemma plain_cell_coerces (c : cell) :
  plain_cell c -> exists z, Pandas.int_of_cell c = Ok z.
Proof.
  destruct c as [|z|f|s]; simpl.
  - contradiction.
  - intros Hz. exists z. now rewrite Hz.
  - intros [z [Hf Hz]]. rewrite Hf, Hz. now exists z.
  - now intros [_ H].
Qed.

Lemma plain_coercible (p : Price.row) : plain p -> coercible p.
Proof.
  intros (H1 & H2 & H3 & H4 & H5 & s & x & Hs & _ & Hx).
  repeat split; try (now apply plain_cell_coerces).
  exists x. now rewrite Hs.
Qed.

(** X4.  When every price row whose address is a key of the coordinate
    table is plain (its five numeric fields and its colour are of the kinds
    that convert), [combine_and_format_data] returns a table exactly when
    there is such a price row; the district table plays no part in this.
    A table it returns is the joined frame formatted row by row, and every
    price row with coordinates then coerces. *)
Theorem combine_returns_iff
        (prices_df : prices_frame) (coordinates_df : coordinates_frame)
        (district_df : district_frame) :
  ((forall p, In p prices_df ->
              In (Price.buildingaddress p) (keys coordinates_df) ->
              plain p) ->
   ((exists t, combine_and_format_data prices_df coordinates_df district_df
               = Ok t) <->
    (exists p, In p prices_df /\
               In (Price.buildingaddress p) (keys coordinates_df)))) /\
  (forall t, combine_and_format_data prices_df coordinates_df district_df
             = Ok t ->
             t = map format_row
                     (joined_frame prices_df coordinates_df district_df) /\
             forall p, In p prices_df ->
                       In (Price.buildingaddress p) (keys coordinates_df) ->
                       coercible p).
Proof.
  split.
  - intros Hplain. split.
    + intros [t H]. apply combine_Ok_inv in H. destruct H as (_ & Hne & _).
      now apply (joined_frame_nonempty _ _ district_df).
    + intros Hex.
      exists (map format_row
                  (joined_frame prices_df coordinates_df district_df)).
      apply combine_Ok_intro.
      * now apply joined_frame_nonempty.
      * rewrite Forall_forall. intros j Hj.
        apply joined_frame_In in Hj. destruct Hj as (Hp & Hc & Hk & _).
        apply plain_coercible. apply Hplain; [assumption|].
        rewrite <- Hk. unfold keys. now apply in_map.
  - intros t H. apply combine_Ok_inv in H. destruct H as (Ht & _ & Hall).
    split; [exact Ht|].
    intros p Hp Hk. unfold keys in Hk. apply in_map_iff in Hk.
    destruct Hk as [c [Hk Hc]].
    destruct (joined_frame_keeps prices_df coordinates_df district_df
                                 p c Hp Hc Hk) as [j (Hj & <- & _)].
    rewrite Forall_forall in Hall. now apply Hall.
Qed.

Lemma combine_returns_iff_witness :
  exists t, combine_and_format_data [Sample.icc; Sample.unknown]
                                    [Sample.icc_coordinates] [] = Ok t.
Proof.
  destruct (combine_returns_iff [Sample.icc; Sample.unknown]
                                [Sample.icc_coordinates] []) as [H _].
  apply H.
  - intros p [<- | [<- | []]] Hk.
    + repeat split; try reflexivity;
        try (cbn; lia); try (eexists; reflexivity).
      exists "10,200,30"%string, (10, 200, 30).
      repeat split; try reflexivity. cbn. lia.
    + destruct Hk as [Hk | []]. discriminate.
  - exists Sample.icc. split; simpl; auto.
Defined.

Lemma matching_rows_nil (coordinates_df : coordinates_frame) (a : string) :
  Pandas.isin a (keys coordinates_df) = false ->
  filter (fun c => String.eqb (Coord.index c) a) coordinates_df = [].
Proof.
  intros H. apply isin_false in H.
  induction coordinates_df as [|c l IH]; simpl; [reflexivity|].
  destruct (String.eqb (Coord.index c) a) eqn:E.
  - apply String.eqb_eq in E. exfalso. apply H. simpl. now left.
  - apply IH. intros Hin. apply H. simpl. now right.
Qed.

Lemma join_coordinates_located (prices_df : prices_frame)
      (coordinates_df : coordinates_frame) :
  join_coordinates (located_prices prices_df coordinates_df) coordinates_df
  = join_coordinates prices_df coordinates_df.
Proof.
  unfold join_coordinates, located_prices.
  induction prices_df as [|p l IH]; simpl; [reflexivity|].
  destruct (Pandas.isin (Price.buildingaddress p) (keys coordinates_df)) eqn:E.
  - simpl. now rewrite IH.
  - rewrite (matching_rows_nil _ _ E). simpl. exact IH.
Qed.

(** X5.  Price rows whose address is no key of the coordinate table have no
    influence on [combine_and_format_data]: with or without them the call
    returns the same table, or raises the same exception. *)
Theorem unlocated_price_rows_are_ignored
        (prices_df : prices_frame) (coordinates_df : coordinates_frame)
        (district_df : district_frame) :
  combine_and_format_data prices_df coordinates_df district_df =
  combine_and_format_data (located_prices prices_df coordinates_df)
                          coordinates_df district_df /\
  forall p, In p (located_prices prices_df coordinates_df) <->
            In p prices_df /\
            In (Price.buildingaddress p) (keys coordinates_df).
Proof.
  split.
  - unfold combine_and_format_data. cbv zeta.
    now rewrite join_coordinates_located.
  - intros p. unfold located_prices. rewrite filter_In, isin_true.
    reflexivity.
Qed.

Lemma matching_rows_length (coordinates_df : coordinates_frame) (a : string) :
  List.length (filter (fun c => String.eqb (Coord.index c) a) coordinates_df)
  = occurrences a (keys coordinates_df).
Proof.
  unfold occurrences, keys.
  induction coordinates_df as [|c l IH]; simpl; [reflexivity|].
  rewrite (String.eqb_sym a (Coord.index c)).
  destruct (String.eqb (Coord.index c) a); simpl; now rewrite IH.
Qed.

Lemma join_districts_length (p : Price.row) (cs : list Coord.row)
      (district_df : district_frame) :
  List.length (join_districts (map (pair p) cs) district_df)
  = (List.length cs
     * Nat.max 1 (List.length (region_rows district_df (Price.region p))))%nat.
Proof.
  unfold join_districts. induction cs as [|c cs IH]; simpl; [reflexivity|].
  rewrite length_app. simpl in IH. rewrite IH. f_equal.
  destruct (region_rows district_df (Price.region p)) as [|d ds];
    [reflexivity|].
  simpl. now rewrite length_map.
Qed.

Lemma join_districts_app (rows rows' : list (Price.row * Coord.row))
      (district_df : district_frame) :
  join_districts (rows ++ rows') district_df
  = join_districts rows district_df ++ join_districts rows' district_df.
Proof.
  unfold join_districts. apply flat_map_app.
Qed.

Lemma joined_frame_length (prices_df : prices_frame)
      (coordinates_df : coordinates_frame) (district_df : district_frame) :
  List.length (joined_frame prices_df coordinates_df district_df)
  = list_sum (map (multiplicity coordinates_df district_df) prices_df).
Proof.
  unfold joined_frame, join_coordinates.
  induction prices_df as [|p l IH]; simpl; [reflexivity|].
  rewrite join_districts_app, length_app, IH. f_equal.
  rewrite join_districts_length, matching_rows_length. reflexivity.
Qed.

(** X6.  The table [combine_and_format_data] returns has, for each price
    row, as many rows as the coordinate table has rows labelled with its
    address, times the number of district rows labelled with its region
    (counted as one when there is none): duplicate labels multiply rows,
    and with labels that are unique the table has at most one row per price
    row. *)
Theorem combined_row_count
        (prices_df : prices_frame) (coordinates_df : coordinates_frame)
        (district_df : district_frame) (t : result_frame) :
  combine_and_format_data prices_df coordinates_df district_df = Ok t ->
  List.length t
  = list_sum (map (multiplicity coordinates_df district_df) prices_df) /\
  ((forall p, In p prices_df ->
              (multiplicity coordinates_df district_df p <= 1)%nat) ->
   (List.length t <= List.length prices_df)%nat).
Proof.
  intros H. apply combine_Ok_inv in H. destruct H as (-> & _ & _).
  rewrite length_map, joined_frame_length. split; [reflexivity|].
  intros Hone. induction prices_df as [|p l IH]; simpl; [lia|].
  assert (Hp : (multiplicity coordinates_df district_df p <= 1)%nat)
    by (apply Hone; now left).
  assert (Hl : (list_sum (map (multiplicity coordinates_df district_df) l)
                <= List.length l)%nat)
    by (apply IH; intros q Hq; apply Hone; now right).
  lia.
Qed.

Lemma combined_row_count_witness :
  List.length
    [format_row (Joined.mk Sample.icc Sample.icc_coordinates None);
     format_row (Joined.mk Sample.icc Sample.icc_coordinates None)]
  = list_sum (map (multiplicity [Sample.icc_coordinates;
                                 Sample.icc_coordinates] [])
                  [Sample.icc; Sample.unknown]).
Proof.
  apply (combined_row_count
           [Sample.icc; Sample.unknown]
           [Sample.icc_coordinates; Sample.icc_coordinates] []
           [format_row (Joined.mk Sample.icc Sample.icc_coordinates None);
            format_row (Joined.mk Sample.icc Sample.icc_coordinates None)]).
  vm_compute. reflexivity.
Defined.

(* ------------------------------------------------------------------ *)
(** ** The geocoder across runs *)

Section Reruns.

Variable gmaps_geocode : string -> list (float * float).

Lemma coordinates_after_covers (cache : coordinates_frame)
      (series : list string) (a : string) :
  (forall c, In c cache -> notna (Coord.lat c) = true) ->
  (~ In a (keys cache) -> notna (fst (located gmaps_geocode a)) = true) ->
  In a series ->
  In a (keys (coordinates_after gmaps_geocode cache series)).
Proof.
  intros Hcache Hgeo Hs.
  destruct (Pandas.isin a (keys cache)) eqn:E.
  - apply isin_true in E. unfold keys in E. apply in_map_iff in E.
    destruct E as [c [<- Hc]]. unfold keys. apply in_map.
    apply coordinates_after_keeps; [assumption | now apply Hcache].
  - apply isin_false in E.
    assert (Ha : In a (buildings_to_get cache series))
      by (apply buildings_to_get_In; now split).
    unfold coordinates_after.
    destruct (buildings_to_get cache series) as [|x l] eqn:El;
      [contradiction|].
    unfold keys.
    apply (in_map Coord.index _
                  (Coord.mk a (fst (located gmaps_geocode a))
                            (snd (located gmaps_geocode a)))).
    apply filter_In. split.
    + apply in_or_app. right. now apply DataFrame_In.
    + simpl. now apply Hgeo.
Qed.

End Reruns.

(** X7.  When the loaded cache has no row with a null latitude and the
    geocoder gives no null latitude for the uncached addresses of the
    series, every address of the series is a key of the table
    [get_coordinates] returns: the inner join of the combiner then finds a
    coordinate for every price row. *)
Theorem every_address_gets_coordinates
        (gmaps_geocode : string -> list (float * float))
        (series : list string) (w : world) :
  (forall c, In c (loaded_coordinates w) -> notna (Coord.lat c) = true) ->
  (forall a, In a series -> ~ In a (keys (loaded_coordinates w)) ->
             notna (fst (located gmaps_geocode a)) = true) ->
  exists returned,
    fst (get_coordinates gmaps_geocode series w) = Ok returned /\
    forall a, In a series -> In a (keys returned).
Proof.
  intros Hcache Hgeo.
  exists (coordinates_after gmaps_geocode (loaded_coordinates w) series).
  rewrite get_coordinates_run. split; [reflexivity|].
  intros a Ha. apply coordinates_after_covers; auto.
Qed.

Lemma every_address_gets_coordinates_witness :
  exists returned,
    fst (get_coordinates Sample.gmaps_geocode
           ["1 Austin Road West"; "No Such Street"] Sample.fresh)
    = Ok returned /\
    forall a, In a ["1 Austin Road West"; "No Such Street"] ->
              In a (keys returned).
Proof.
  apply (every_address_gets_coordinates
           Sample.gmaps_geocode
           ["1 Austin Road West"; "No Such Street"] Sample.fresh).
  - intros c [].
  - intros a [<- | [<- | []]] _; reflexivity.
Defined.

(* ------------------------------------------------------------------ *)
(** ** A whole run *)

Section Run.

Variable session_get : string -> response.
Variable hk11_links : string -> result (list string).
Variable next_data : string -> result pageProps.
Variable gmaps_geocode : string -> list (float * float).

Lemma get_prices_same_files (w : world) :
  same_files w (snd (get_prices session_get hk11_links next_data w)).
Proof.
  destruct (get_prices_logs session_get hk11_links next_data w)
    as [urls [E _]].
  rewrite E. repeat split.
Qed.

End Run.

(** C10.  When the coordinate file exists and every address of the series
    is one of its keys, [get_coordinates] returns the loaded table as it is
    and leaves the world alone: the null-latitude filter is not applied, so
    the rows of the file with a null latitude are returned too.  [main]
    then writes this table back: in a run whose prices have these
    addresses, the coordinate file is written right after the price file
    and holds the loaded table, null latitudes included (its labels being
    unique, as [to_json] requires).  Whereas when some address is not
    cached, no returned row has a null latitude. *)
Theorem all_cached_returns_loaded_unfiltered
        (gmaps_geocode : string -> list (float * float))
        (series : list string) (w : world) (cache : coordinates_frame) :
  coordinates_json w = Some cache ->
  (forall a, In a series -> In a (keys cache)) ->
  get_coordinates gmaps_geocode series w = (Ok cache, w) /\
  (forall c, In c cache -> notna (Coord.lat c) = false ->
             exists returned,
               fst (get_coordinates gmaps_geocode series w) = Ok returned /\
               In c returned) /\
  (forall session_get hk11_links next_data prices_df,
      fst (get_prices session_get hk11_links next_data w) = Ok prices_df ->
      prices_df <> [] ->
      map Price.buildingaddress prices_df = series ->
      Pandas.is_unique (keys cache) = true ->
      coordinates_json
        (snd (main session_get hk11_links next_data gmaps_geocode w))
      = Some cache /\
      exists rest,
        outputs (snd (main session_get hk11_links next_data gmaps_geocode w))
        = outputs w ++ PricesJson prices_df :: CoordinatesJson cache :: rest) /\
  (forall extra returned,
      ~ In extra (keys cache) ->
      fst (get_coordinates gmaps_geocode (extra :: series) w) = Ok returned ->
      forall c, In c returned -> notna (Coord.lat c) = true).
Proof.
  intros Hfile Hall.
  assert (Hl : loaded_coordinates w = cache)
    by (unfold loaded_coordinates; now rewrite Hfile).
  assert (Hrun : get_coordinates gmaps_geocode series w = (Ok cache, w)).
  { rewrite get_coordinates_run, Hl.
    unfold coordinates_after.
    rewrite (buildings_to_get_nil cache series Hall).
    simpl. now rewrite log_all_nil. }
  split; [exact Hrun|]. split; [|split].
  - intros c Hc _. exists cache. rewrite Hrun. now split.
  - intros session_get hk11_links next_data prices_df Hp Hne Hs Hu.
    pose proof (get_prices_same_files session_get hk11_links next_data w)
      as (_ & Hc & _ & _ & Ho).
    destruct (get_prices session_get hk11_links next_data w)
      as [[p|e] w1] eqn:Hg; cbn [fst snd] in *; [|discriminate].
    inversion Hp; subst p; clear Hp.
    rewrite (main_run _ _ _ gmaps_geocode w w1 prices_df Hg).
    destruct prices_df as [|p0 prices]; [congruence|].
    cbv zeta. rewrite Hs.
    assert (Hl1 : loaded_coordinates w1 = cache)
      by (unfold loaded_coordinates; now rewrite Hc, Hfile).
    rewrite Hl1. unfold coordinates_after.
    rewrite (buildings_to_get_nil cache series Hall). rewrite Hu.
    destruct (districts_json w1) as [file|].
    + destruct (regions_column file) as [mapping|e].
      * destruct (combine_and_format_data _ _ _) as [result_df|e];
          (split; [reflexivity|]);
          cbn [snd outputs write_html write_coordinates log_all write_prices];
          rewrite Ho, <- !app_assoc; eexists; reflexivity.
      * split; [reflexivity|].
        cbn [snd outputs write_html write_coordinates log_all write_prices].
        rewrite Ho, <- !app_assoc. eexists. reflexivity.
    + split; [reflexivity|].
      cbn [snd outputs write_html write_coordinates log_all write_prices].
      rewrite Ho, <- !app_assoc. eexists. reflexivity.
  - intros extra returned Hextra Hret c Hc.
    rewrite get_coordinates_run, Hl in Hret. simpl in Hret.
    inversion Hret; subst returned.
    apply coordinates_after_fetch_notna in Hc; [assumption|].
    intros E.
    assert (Hin : In extra (buildings_to_get cache (extra :: series)))
      by (apply buildings_to_get_In; split; [now left | assumption]).
    rewrite E in Hin. contradiction.
Qed.

Lemma all_cached_returns_loaded_unfiltered_witness :
  get_coordinates Sample.gmaps_geocode ["1 Austin Road West"]
    (Sample.with_prices [Sample.icc] (Some [Sample.null_coordinates]))
  = (Ok [Sample.null_coordinates],
     Sample.with_prices [Sample.icc] (Some [Sample.null_coordinates])) /\
  notna (Coord.lat Sample.null_coordinates) = false /\
  coordinates_json
    (snd (main Sample.session_get Sample.hk11_links Sample.next_data
               Sample.gmaps_geocode
               (Sample.with_prices [Sample.icc]
                                   (Some [Sample.null_coordinates]))))
  = Some [Sample.null_coordinates] /\
  exists rest,
    outputs
      (snd (main Sample.session_get Sample.hk11_links Sample.next_data
                 Sample.gmaps_geocode
                 (Sample.with_prices [Sample.icc]
                                     (Some [Sample.null_coordinates]))))
    = outputs (Sample.with_prices [Sample.icc]
                                  (Some [Sample.null_coordinates]))
      ++ PricesJson [Sample.icc]
      :: CoordinatesJson [Sample.null_coordinates] :: rest.
Proof.
  destruct (all_cached_returns_loaded_unfiltered
              Sample.gmaps_geocode ["1 Austin Road West"]
              (Sample.with_prices [Sample.icc]
                                  (Some [Sample.null_coordinates]))
              [Sample.null_coordinates])
    as (Hrun & _ & Hmain & _).
  - reflexivity.
  - intros a [<- | []]. simpl. now left.
  - split; [exact Hrun|]. split; [reflexivity|].
    apply (Hmain Sample.session_get Sample.hk11_links Sample.next_data
                 [Sample.icc]).
    + reflexivity.
    + discriminate.
    + reflexivity.
    + reflexivity.
Defined.

(** X10.  When [main] succeeds, the files it leaves fit together: the
    price file holds the table [get_prices] returned, the coordinate file
    holds the table [get_coordinates] returned for the addresses of that
    table, whose labels are unique, and the rendered table is
    [combine_and_format_data] of these two and of the table
    [get_districts] returned; the three are written in this order and
    nothing else is; every rendered building has its address in the price
    file and among the keys of the coordinate file. *)
Theorem successful_run_persists_what_it_renders
        (session_get : string -> response)
        (hk11_links : string -> result (list string))
        (next_data : string -> result pageProps)
        (gmaps_geocode : string -> list (float * float))
        (w w' : world) :
  main session_get hk11_links next_data gmaps_geocode w = (Ok tt, w') ->
  exists prices_df coordinates_df district_df result_df,
    fst (get_prices session_get hk11_links next_data w) = Ok prices_df /\
    fst (get_coordinates
           gmaps_geocode (map Price.buildingaddress prices_df)
           (write_prices prices_df
              (snd (get_prices session_get hk11_links next_data w))))
    = Ok coordinates_df /\
    fst (get_districts w) = Ok district_df /\
    combine_and_format_data prices_df coordinates_df district_df
    = Ok result_df /\
    prices_json w' = Some prices_df /\
    coordinates_json w' = Some coordinates_df /\
    districts_json w' = districts_json w /\
    district_html w' = Some result_df /\
    outputs w' = outputs w ++ [PricesJson prices_df;
                               CoordinatesJson coordinates_df;
                               DistrictHtml result_df] /\
    Pandas.is_unique (keys coordinates_df) = true /\
    forall o, In o result_df ->
              In (Combined.buildingaddress o)
                 (map Price.buildingaddress prices_df) /\
              In (Combined.buildingaddress o) (keys coordinates_df).
Proof.
  intros H.
  pose proof (get_prices_same_files session_get hk11_links next_data w)
    as (_ & _ & Hd & _ & Ho).
  destruct (get_prices session_get hk11_links next_data w)
    as [[prices_df|e] w1] eqn:Hp.
  2:{ rewrite (main_no_prices _ _ _ gmaps_geocode w w1 e Hp) in H.
      discriminate. }
  rewrite (main_run _ _ _ gmaps_geocode w w1 prices_df Hp) in H.
  destruct prices_df as [|p0 prices]; [discriminate|].
  set (prices_df := p0 :: prices) in *.
  cbv zeta in H. cbn [snd] in Hd, Ho.
  set (coordinates_df := coordinates_after gmaps_geocode
                           (loaded_coordinates w1)
                           (map Price.buildingaddress prices_df)) in *.
  destruct (Pandas.is_unique (keys coordinates_df)) eqn:Hu; [|discriminate].
  destruct (districts_json w1) as [file|] eqn:Hm; [|discriminate].
  destruct (regions_column file) as [mapping|e] eqn:Hr; [|discriminate].
  destruct (combine_and_format_data prices_df coordinates_df
                                    (flat_map Pandas.explode mapping))
    as [result_df|e] eqn:Hc; [|discriminate].
  inversion H; subst w'; clear H.
  exists prices_df, coordinates_df, (flat_map Pandas.explode mapping),
    result_df.
  split; [reflexivity|]. split.
  { cbn [snd]. now rewrite get_coordinates_run. }
  split.
  { unfold get_districts, bind_io, read_json, lift, ret.
    rewrite <- Hd. now rewrite Hr. }
  split; [exact Hc|].
  split; [reflexivity|]. split; [reflexivity|].
  split; [cbn; now rewrite <- Hd|].
  split; [reflexivity|].
  split.
  { cbn [outputs write_html write_coordinates log_all write_prices].
    rewrite Ho. rewrite <- !app_assoc. reflexivity. }
  split; [exact Hu|].
  intros o Hin. apply combine_Ok_inv in Hc. destruct Hc as (-> & _ & _).
  apply in_map_iff in Hin. destruct Hin as [j [<- Hj]].
  apply joined_frame_In in Hj. destruct Hj as (Hj & Hjc & Hk & _).
  unfold format_row. cbn [Combined.buildingaddress]. split.
  - now apply in_map.
  - rewrite <- Hk. unfold keys. now apply in_map.
Qed.

Lemma successful_run_persists_what_it_renders_witness :
  exists prices_df coordinates_df district_df result_df,
    fst (get_prices Site.session_get Site.hk11_links Site.next_data
                    Site.offline) = Ok prices_df /\
    fst (get_coordinates
           Sample.gmaps_geocode (map Price.buildingaddress prices_df)
           (write_prices prices_df
              (snd (get_prices Site.session_get Site.hk11_links
                               Site.next_data Site.offline))))
    = Ok coordinates_df /\
    fst (get_districts Site.offline) = Ok district_df /\
    combine_and_format_data prices_df coordinates_df district_df
    = Ok result_df /\
    prices_json
      (snd (main Site.session_get Site.hk11_links Site.next_data
                 Sample.gmaps_geocode Site.offline)) = Some prices_df /\
    coordinates_json
      (snd (main Site.session_get Site.hk11_links Site.next_data
                 Sample.gmaps_geocode Site.offline)) = Some coordinates_df /\
    districts_json
      (snd (main Site.session_get Site.hk11_links Site.next_data
                 Sample.gmaps_geocode Site.offline))
    = districts_json Site.offline /\
    district_html
      (snd (main Site.session_get Site.hk11_links Site.next_data
                 Sample.gmaps_geocode Site.offline)) = Some result_df /\
    outputs
      (snd (main Site.session_get Site.hk11_links Site.next_data
                 Sample.gmaps_geocode Site.offline))
    = outputs Site.offline ++ [PricesJson prices_df;
                               CoordinatesJson coordinates_df;
                               DistrictHtml result_df] /\
    Pandas.is_unique (keys coordinates_df) = true /\
    forall o, In o result_df ->
              In (Combined.buildingaddress o)
                 (map Price.buildingaddress prices_df) /\
              In (Combined.buildingaddress o) (keys coordinates_df).
Proof.
  apply (successful_run_persists_what_it_renders
           Site.session_get Site.hk11_links Site.next_data
           Sample.gmaps_geocode Site.offline).
  vm_compute. reflexivity.
Defined.

(** X11.  When [main] raises, nothing is rendered: [district.html] is as it
    was before the run.  The price file is written all the same as soon as
    the prices are collected, so a failed run still leaves its price
    cache. *)
Theorem failed_run_renders_nothing
        (session_get : string -> response)
        (hk11_links : string -> result (list string))
        (next_data : string -> result pageProps)
        (gmaps_geocode : string -> list (float * float))
        (w : world) (e : exception) :
  fst (main session_get hk11_links next_data gmaps_geocode w) = Raise e ->
  district_html (snd (main session_get hk11_links next_data
                           gmaps_geocode w))
  = district_html w /\
  forall prices_df,
    fst (get_prices session_get hk11_links next_data w) = Ok prices_df ->
    prices_json (snd (main session_get hk11_links next_data
                           gmaps_geocode w))
    = Some prices_df.
Proof.
  intros H.
  pose proof (get_prices_same_files session_get hk11_links next_data w)
    as (_ & _ & _ & Hh & _).
  destruct (get_prices session_get hk11_links next_data w)
    as [[prices_df|e'] w1] eqn:Hp; cbn [snd fst] in *.
  2:{ rewrite (main_no_prices _ _ _ gmaps_geocode w w1 e' Hp).
      split; [exact Hh | discriminate]. }
  rewrite (main_run _ _ _ gmaps_geocode w w1 prices_df Hp) in *.
  assert (Hfile : forall p, Ok prices_df = Ok p -> Some prices_df = Some p)
    by (intros p Ep; now inversion Ep).
  destruct prices_df as [|p0 prices]; [split; [exact Hh | exact Hfile]|].
  cbv zeta in *.
  destruct (Pandas.is_unique _); [|split; [exact Hh | exact Hfile]].
  destruct (districts_json w1) as [file|];
    [|split; [exact Hh | exact Hfile]].
  destruct (regions_column file) as [mapping|e0];
    [|split; [exact Hh | exact Hfile]].
  destruct (combine_and_format_data _ _ _); [discriminate|].
  split; [exact Hh | exact Hfile].
Qed.

Lemma failed_run_renders_nothing_witness :
  district_html
    (snd (main Sample.session_get Sample.hk11_links Sample.next_data
               Sample.gmaps_geocode
               (Sample.with_prices [Sample.garbled] None)))
  = None /\
  prices_json
    (snd (main Sample.session_get Sample.hk11_links Sample.next_data
               Sample.gmaps_geocode
               (Sample.with_prices [Sample.garbled] None)))
  = Some [Sample.garbled].
Proof.
  destruct (failed_run_renders_nothing
              Sample.session_get Sample.hk11_links Sample.next_data
              Sample.gmaps_geocode
              (Sample.with_prices [Sample.garbled] None) ValueError)
    as [Hh Hp].
  - vm_compute. reflexivity.
  - split; [exact Hh|]. apply Hp. reflexivity.
Defined.

Lemma occurrences_app (a : string) (l l' : list string) :
  occurrences a (l ++ l') = (occurrences a l + occurrences a l')%nat.
Proof.
  unfold occurrences. now rewrite filter_app, length_app.
Qed.

Lemma occurrences_absent (a : string) (l : list string) :
  Pandas.isin a l = false -> occurrences a l = 0%nat.
Proof.
  unfold occurrences, Pandas.isin.
  induction l as [|x l IH]; simpl; [reflexivity|].
  destruct (String.eqb a x); simpl; [discriminate | exact IH].
Qed.

Lemma is_unique_occurrences (l : list string) (a : string) :
  Pandas.is_unique l = true -> (occurrences a l <= 1)%nat.
Proof.
  induction l as [|x l IH]; simpl; intros H; [unfold occurrences; simpl; lia|].
  apply andb_true_iff in H. destruct H as [Hx Hl].
  apply negb_true_iff in Hx. specialize (IH Hl).
  unfold occurrences in *. simpl.
  destruct (String.eqb a x) eqn:E; simpl; [|exact IH].
  apply String.eqb_eq in E. subst x.
  pose proof (occurrences_absent a l Hx) as H0.
  unfold occurrences in H0. lia.
Qed.

Lemma occurrences_to_get (cache : coordinates_frame) (series : list string)
      (a : string) :
  ~ In a (keys cache) ->
  occurrences a (buildings_to_get cache series) = occurrences a series.
Proof.
  intros Hk. apply isin_false in Hk.
  unfold occurrences, buildings_to_get.
  induction series as [|x l IH]; simpl; [reflexivity|].
  destruct (Pandas.isin x (keys cache)) eqn:Ex; simpl;
    destruct (String.eqb a x) eqn:E; simpl; rewrite IH; try reflexivity.
  apply String.eqb_eq in E. subst x. congruence.
Qed.

Lemma occurrences_fetched (gmaps_geocode : string -> list (float * float))
      (l : list string) (a : string) :
  notna (fst (located gmaps_geocode a)) = true ->
  occurrences a
    (keys (filter (fun c => notna (Coord.lat c))
                  (Pandas.DataFrame (map (located gmaps_geocode) l) l)))
  = occurrences a l.
Proof.
  intros Hn. unfold occurrences, keys, Pandas.DataFrame.
  induction l as [|x l IH]; simpl; [reflexivity|].
  destruct (String.eqb a x) eqn:E.
  - apply String.eqb_eq in E. subst x. rewrite Hn. simpl.
    rewrite String.eqb_refl. simpl. now rewrite IH.
  - destruct (notna (fst (located gmaps_geocode x))); simpl.
    + rewrite E. exact IH.
    + exact IH.
Qed.

(** An uncached address with a geocoded latitude is, in the returned
    table, the label of at least as many rows as it has occurrences in the
    series. *)
Lemma coordinates_after_occurrences
      (gmaps_geocode : string -> list (float * float))
      (cache : coordinates_frame) (series : list string) (a : string) :
  ~ In a (keys cache) ->
  notna (fst (located gmaps_geocode a)) = true ->
  (occurrences a series
   <= occurrences a (keys (coordinates_after gmaps_geocode cache series)))%nat.
Proof.
  intros Hk Hn. rewrite <- (occurrences_to_get cache series a Hk).
  unfold coordinates_after.
  destruct (buildings_to_get cache series) as [|x l] eqn:E.
  - unfold occurrences at 1. simpl. lia.
  - unfold keys. rewrite filter_app, map_app, occurrences_app.
    fold (keys (filter (fun c => notna (Coord.lat c))
                       (Pandas.DataFrame
                          (map (located gmaps_geocode) (x :: l)) (x :: l)))).
    rewrite (occurrences_fetched gmaps_geocode (x :: l) a Hn). lia.
Qed.

(** X12.  If an address that is no key of the coordinate cache occurs twice
    in the collected prices and the geocoder gives it a latitude, the
    returned table has two rows with that label and cannot be written as a
    JSON object: [main] raises [ValueError] after the price file is written
    and the queries are made, the coordinate file is left as it was and
    nothing is rendered. *)
Theorem duplicate_uncached_address_aborts_run
        (session_get : string -> response)
        (hk11_links : string -> result (list string))
        (next_data : string -> result pageProps)
        (gmaps_geocode : string -> list (float * float))
        (w : world) (prices_df : prices_frame) (a : string) :
  fst (get_prices session_get hk11_links next_data w) = Ok prices_df ->
  (2 <= occurrences a (map Price.buildingaddress prices_df))%nat ->
  ~ In a (keys (loaded_coordinates w)) ->
  notna (fst (located gmaps_geocode a)) = true ->
  exists w',
    main session_get hk11_links next_data gmaps_geocode w
    = (Raise ValueError, w') /\
    prices_json w' = Some prices_df /\
    coordinates_json w' = coordinates_json w /\
    district_html w' = district_html w /\
    exists calls, network w' = network w ++ calls /\
                  In (Geocode a) calls.
Proof.
  intros Hp Htwice Hk Hn.
  destruct (get_prices_logs session_get hk11_links next_data w)
    as [urls [Elog _]].
  destruct (get_prices session_get hk11_links next_data w)
    as [[p|e] w1] eqn:Hg; cbn [fst snd] in *; [|discriminate].
  inversion Hp; subst p; clear Hp. subst w1.
  change (loaded_coordinates w)
    with (loaded_coordinates (log_all (map HttpGet urls) w)) in Hk.
  rewrite (main_run _ _ _ gmaps_geocode w _ prices_df Hg).
  destruct prices_df as [|p0 prices]; [cbn in Htwice; lia|].
  cbv zeta.
  set (w1 := log_all (map HttpGet urls) w) in *.
  set (series := map Price.buildingaddress (p0 :: prices)) in *.
  destruct (Pandas.is_unique
              (keys (coordinates_after gmaps_geocode
                                       (loaded_coordinates w1) series)))
    eqn:Hu.
  - exfalso.
    pose proof (is_unique_occurrences _ a Hu) as Hone.
    pose proof (coordinates_after_occurrences
                  gmaps_geocode (loaded_coordinates w1) series a Hk Hn).
    lia.
  - eexists. split; [reflexivity|].
    split; [reflexivity|]. split; [reflexivity|]. split; [reflexivity|].
    exists (map HttpGet urls
            ++ map Geocode (buildings_to_get (loaded_coordinates w1) series)).
    split.
    + simpl. now rewrite app_assoc.
    + apply in_or_app. right. apply in_map.
      apply buildings_to_get_In. split; [|assumption].
      destruct (Pandas.isin a series) eqn:Ein.
      * now apply isin_true.
      * rewrite (occurrences_absent a series Ein) in Htwice. lia.
Qed.

Lemma duplicate_uncached_address_aborts_run_witness :
  exists w',
    main Sample.session_get Sample.hk11_links Sample.next_data
         Sample.gmaps_geocode
         (Sample.with_prices [Sample.icc; Sample.icc] None)
    = (Raise ValueError, w') /\
    prices_json w' = Some [Sample.icc; Sample.icc] /\
    coordinates_json w'
    = coordinates_json (Sample.with_prices [Sample.icc; Sample.icc] None) /\
    district_html w'
    = district_html (Sample.with_prices [Sample.icc; Sample.icc] None) /\
    exists calls,
      network w'
      = network (Sample.with_prices [Sample.icc; Sample.icc] None) ++ calls /\
      In (Geocode "1 Austin Road West") calls.
Proof.
  apply (duplicate_uncached_address_aborts_run
           Sample.session_get Sample.hk11_links Sample.next_data
           Sample.gmaps_geocode
           (Sample.with_prices [Sample.icc; Sample.icc] None)
           [Sample.icc; Sample.icc] "1 Austin Road West").
  - reflexivity.
  - vm_compute. lia.
  - simpl. intros [].
  - reflexivity.
Defined.

(* ------------------------------------------------------------------ *)
(** ** Districts in the combined table *)

Lemma region_rows_app (l l' : district_frame) (region : string) :
  region_rows (l ++ l') region = region_rows l region ++ region_rows l' region.
Proof.
  unfold region_rows. apply filter_app.
Qed.

Lemma region_rows_has_regions (mapping : list (string * list string))
      (region : string) :
  region_rows (flat_map Pandas.explode (filter has_regions mapping)) region
  = region_rows (flat_map Pandas.explode mapping) region.
Proof.
  induction mapping as [|[name rs] mapping IH]; simpl; [reflexivity|].
  unfold has_regions at 1. cbn [snd].
  destruct rs as [|r rs].
  - rewrite region_rows_app, IH. reflexivity.
  - cbn [flat_map]. now rewrite !region_rows_app, IH.
Qed.

Lemma join_districts_ext (rows : list (Price.row * Coord.row))
      (d d' : district_frame) :
  (forall region, region_rows d region = region_rows d' region) ->
  join_districts rows d = join_districts rows d'.
Proof.
  intros H. unfold join_districts. apply flat_map_ext.
  intros pc. now rewrite H.
Qed.

(** X14.  In a table that [combine_and_format_data] returns for the
    exploded district mapping, the district of a row is a district of the
    mapping whose region list holds the region of the row, and it is null
    only when no district of the mapping lists that region. *)
Theorem combined_district_lists_the_region
        (prices_df : prices_frame) (coordinates_df : coordinates_frame)
        (mapping : list (string * list string)) (t : result_frame)
        (o : Combined.row) :
  combine_and_format_data prices_df coordinates_df
                          (flat_map Pandas.explode mapping) = Ok t ->
  In o t ->
  match Combined.district o with
  | Some name => exists rs, In (name, rs) mapping /\
                            In (Combined.region o) rs
  | None => forall name rs, In (name, rs) mapping ->
                            ~ In (Combined.region o) rs
  end.
Proof.
  intros H Ho. apply combine_Ok_inv in H. destruct H as (-> & _ & _).
  apply in_map_iff in Ho. destruct Ho as [j [<- Hj]].
  apply joined_frame_In in Hj. destruct Hj as (_ & _ & _ & Hd).
  cbn [format_row Combined.district Combined.region].
  destruct (Joined.district j) as [name|].
  - destruct Hd as [d (Hd & Hr & Hn)].
    apply in_flat_map in Hd. destruct Hd as [[name' rs] [Hin Hex]].
    destruct d as [regions district]. simpl in Hr, Hn. subst.
    apply explode_In in Hex. simpl in Hex. destruct Hex as [-> Hex].
    now exists rs.
  - intros name rs Hin Hr.
    assert (Hrow : In (District.mk (Some (Price.region (Joined.price j)))
                                   name)
                      (flat_map Pandas.explode mapping)).
    { apply in_flat_map. exists (name, rs). split; [assumption|].
      apply explode_In. simpl. auto. }
    apply (proj1 (region_rows_nil _ _) Hd _ Hrow). reflexivity.
Qed.

Lemma combined_district_lists_the_region_witness :
  exists rs, In ("NewTerritories", rs) Sample.districts /\ In "regionA" rs.
Proof.
  apply (combined_district_lists_the_region
           [Sample.icc] [Sample.icc_coordinates] Sample.districts
           [format_row (Joined.mk Sample.icc Sample.icc_coordinates
                                  (Some "NewTerritories"))]
           (format_row (Joined.mk Sample.icc Sample.icc_coordinates
                                  (Some "NewTerritories")))).
  - vm_compute. reflexivity.
  - simpl. left. reflexivity.
Defined.

(** X15.  A district whose region list is empty is exploded into a row
    with a null label, which no region matches: removing such districts
    from the mapping changes nothing in what [combine_and_format_data]
    returns or raises. *)
Theorem district_without_regions_changes_nothing
        (prices_df : prices_frame) (coordinates_df : coordinates_frame)
        (mapping : list (string * list string)) :
  combine_and_format_data prices_df coordinates_df
                          (flat_map Pandas.explode mapping)
  = combine_and_format_data prices_df coordinates_df
                            (flat_map Pandas.explode
                                      (filter has_regions mapping)) /\
  forall name, In (name, []) mapping ->
               In (District.mk None name) (flat_map Pandas.explode mapping).
Proof.
  split.
  - unfold combine_and_format_data. cbv zeta.
    rewrite (join_districts_ext
               (join_coordinates prices_df coordinates_df)
               (flat_map Pandas.explode mapping)
               (flat_map Pandas.explode (filter has_regions mapping))).
    + reflexivity.
    + intros region. now rewrite region_rows_has_regions.
  - intros name Hin. apply in_flat_map. exists (name, []).
    split; [assumption | now left].
Qed.

(* ------------------------------------------------------------------ *)
(** ** Integers and their numerals *)

Lemma digit_is_no_space (c : ascii) :
  Python.is_digit c = true -> Python.is_space c = false.
Proof.
  destruct c as [[|] [|] [|] [|] [|] [|] [|] [|]];
    intros H; try reflexivity; discriminate H.
Qed.

Lemma digit_is_no_comma (c : ascii) :
  Python.is_digit c = true -> negb (Ascii.eqb c ","%char) = true.
Proof.
  destruct c as [[|] [|] [|] [|] [|] [|] [|] [|]];
    intros H; try reflexivity; discriminate H.
Qed.

Lemma string_of_uint_digits (d : Decimal.uint) :
  Forall (fun c => Python.is_digit c = true)
         (list_ascii_of_string (NilEmpty.string_of_uint d)).
Proof.
  induction d; simpl; constructor; (reflexivity || assumption).
Qed.

Lemma rstrip_no_space (s : string) :
  Forall (fun c => Python.is_space c = false) (list_ascii_of_string s) ->
  Python.rstrip s = s.
Proof.
  induction s as [|c s IH]; simpl; intros H; [reflexivity|].
  inversion H as [|c' l Hc Hs]; subst. rewrite (IH Hs), Hc.
  now destruct s.
Qed.

Lemma strip_digits (s : string) :
  Forall (fun c => Python.is_digit c = true) (list_ascii_of_string s) ->
  Python.strip s = s.
Proof.
  intros H. unfold Python.strip.
  assert (Hl : Python.lstrip s = s).
  { destruct s as [|c s]; [reflexivity|]. simpl.
    inversion H; subst. now rewrite digit_is_no_space. }
  rewrite Hl. apply rstrip_no_space.
  eapply Forall_impl; [|exact H]. apply digit_is_no_space.
Qed.

Lemma digits_step (c : ascii) (s : string) (acc : Z) (b : bool) :
  Python.is_digit c = true ->
  Python.digits (String c s) acc b
  = Python.digits s (10 * acc + Python.digit_value c) true.
Proof.
  intros H. cbn [Python.digits]. now rewrite H.
Qed.

Lemma digits_string_of_uint (d : Decimal.uint) :
  forall acc : Z,
    Python.digits (NilEmpty.string_of_uint d) acc true
    = Some (uint_value d acc) /\
    (d <> Decimal.Nil ->
     Python.digits (NilEmpty.string_of_uint d) acc false
     = Some (uint_value d acc)).
Proof.
  induction d; intros acc; cbn [NilEmpty.string_of_uint uint_value].
  - split; [reflexivity | congruence].
  - rewrite !digits_step by reflexivity.
    change (Python.digit_value "0"%char) with 0. rewrite Z.add_0_r.
    split; [apply IHd | intros _; apply IHd].
  - rewrite !digits_step by reflexivity.
    split; [apply IHd | intros _; apply IHd].
  - rewrite !digits_step by reflexivity.
    split; [apply IHd | intros _; apply IHd].
  - rewrite !digits_step by reflexivity.
    split; [apply IHd | intros _; apply IHd].
  - rewrite !digits_step by reflexivity.
    split; [apply IHd | intros _; apply IHd].
  - rewrite !digits_step by reflexivity.
    split; [apply IHd | intros _; apply IHd].
  - rewrite !digits_step by reflexivity.
    split; [apply IHd | intros _; apply IHd].
  - rewrite !digits_step by reflexivity.
    split; [apply IHd | intros _; apply IHd].
  - rewrite !digits_step by reflexivity.
    split; [apply IHd | intros _; apply IHd].
  - rewrite !digits_step by reflexivity.
    split; [apply IHd | intros _; apply IHd].
Qed.

Lemma uint_value_of_uint_acc (d : Decimal.uint) :
  forall acc : positive,
    uint_value d (Zpos acc) = Zpos (Pos.of_uint_acc d acc).
Proof.
  induction d; intros acc; cbn [uint_value Pos.of_uint_acc];
    try reflexivity; rewrite <- IHd; f_equal; lia.
Qed.

Lemma uint_value_of_uint (d : Decimal.uint) :
  uint_value d 0 = Z.of_uint d.
Proof.
  unfold Z.of_uint.
  induction d; cbn [uint_value Pos.of_uint Z.of_N Z.mul Z.add];
    try reflexivity; try assumption;
    apply (uint_value_of_uint_acc d).
Qed.

Lemma int_of_str_uint (d : Decimal.uint) :
  d <> Decimal.Nil ->
  Python.int_of_str (NilEmpty.string_of_uint d) = Some (Z.of_uint d).
Proof.
  intros Hd. unfold Python.int_of_str.
  rewrite (strip_digits _ (string_of_uint_digits d)).
  rewrite <- uint_value_of_uint.
  destruct (digits_string_of_uint d 0) as [_ H]. rewrite <- (H Hd).
  destruct d; [congruence | reflexivity ..].
Qed.

Lemma int_of_str_neg_uint (d : Decimal.uint) :
  d <> Decimal.Nil ->
  Python.int_of_str (String "-"%char (NilEmpty.string_of_uint d))
  = Some (- Z.of_uint d).
Proof.
  intros Hd. unfold Python.int_of_str, Python.strip.
  cbn [Python.lstrip]. change (Python.is_space "-"%char) with false.
  cbv iota.
  rewrite rstrip_no_space.
  - rewrite <- uint_value_of_uint.
    destruct (digits_string_of_uint d 0) as [_ H]. rewrite (H Hd).
    reflexivity.
  - simpl. constructor; [reflexivity|].
    eapply Forall_impl; [|exact (string_of_uint_digits d)].
    apply digit_is_no_space.
Qed.

(** [int] reads the decimal numeral of an integer back as that integer. *)
Lemma int_of_str_decimal (z : Z) : Python.int_of_str (decimal z) = Some z.
Proof.
  unfold decimal. destruct z as [|p|p]; [reflexivity| |].
  - simpl. unfold NilZero.string_of_uint.
    pose proof (DecimalPos.Unsigned.to_uint_nonnil p) as Hn.
    destruct (Pos.to_uint p) eqn:E; [congruence | rewrite <- E ..];
      rewrite int_of_str_uint by (rewrite E; discriminate);
      unfold Z.of_uint; rewrite DecimalPos.Unsigned.of_to; reflexivity.
  - simpl. unfold NilZero.string_of_uint.
    pose proof (DecimalPos.Unsigned.to_uint_nonnil p) as Hn.
    destruct (Pos.to_uint p) eqn:E; [congruence | rewrite <- E ..];
      rewrite int_of_str_neg_uint by (rewrite E; discriminate);
      unfold Z.of_uint; rewrite DecimalPos.Unsigned.of_to; reflexivity.
Qed.

Lemma group3_without_commas (l : list ascii) :
  forall n,
    filter (fun c => negb (Ascii.eqb c ","%char)) (Python.group3 l n)
    = filter (fun c => negb (Ascii.eqb c ","%char)) l.
Proof.
  induction l as [|c l IH]; intros n; [reflexivity|].
  cbn [Python.group3].
  destruct n as [|[|[|n]]]; try (cbn [filter]; now rewrite IH).
  destruct l as [|c' l'].
  - cbn [filter]. now rewrite IH.
  - cbn [filter]. change (negb (Ascii.eqb ","%char ","%char)) with false.
    cbv iota. now rewrite IH.
Qed.

Lemma filter_all {A : Type} (f : A -> bool) (l : list A) :
  Forall (fun x => f x = true) l -> filter f l = l.
Proof.
  induction 1 as [|x l Hx _ IH]; simpl; [reflexivity|].
  now rewrite Hx, IH.
Qed.

Lemma string_of_uint_nilzero_digits (d : Decimal.uint) :
  Forall (fun c => Python.is_digit c = true)
         (list_ascii_of_string (NilZero.string_of_uint d)).
Proof.
  unfold NilZero.string_of_uint. destruct d;
    try apply string_of_uint_digits.
  simpl. constructor; [reflexivity | constructor].
Qed.

Lemma grouped_body_without_commas (d : Decimal.uint) :
  remove_commas
    (string_of_list_ascii
       (rev (Python.group3
               (rev (list_ascii_of_string (NilZero.string_of_uint d))) O)))
  = NilZero.string_of_uint d.
Proof.
  unfold remove_commas.
  rewrite list_ascii_of_string_of_list_ascii, filter_rev,
    group3_without_commas, filter_rev, rev_involutive.
  rewrite filter_all.
  - apply string_of_list_ascii_of_string.
  - eapply Forall_impl; [|exact (string_of_uint_nilzero_digits d)].
    apply digit_is_no_comma.
Qed.

(** Without its commas, the formatted price is the numeral of the price. *)
Lemma format_thousands_without_commas (z : Z) :
  remove_commas (Python.format_thousands z) = decimal z.
Proof.
  unfold Python.format_thousands, decimal. destruct z as [|p|p].
  - reflexivity.
  - change (Z.pos p <? 0) with false. cbv iota.
    apply grouped_body_without_commas.
  - change (Z.neg p <? 0) with true. cbv iota.
    cbn [Z.to_int NilZero.string_of_int Z.abs_N N.to_uint].
    rewrite <- (grouped_body_without_commas (Pos.to_uint p)) at 2.
    unfold remove_commas. cbn [list_ascii_of_string filter].
    change (negb (Ascii.eqb "-"%char ","%char)) with true. cbv iota.
    reflexivity.
Qed.

(** X16.  The formatted price of a returned row reads back as the price:
    without its commas, [medianpredprice_formatted] is the decimal numeral
    of [medianpredprice], and [int] of it is [medianpredprice]. *)
Theorem formatted_price_reads_back
        (prices_df : prices_frame) (coordinates_df : coordinates_frame)
        (district_df : district_frame) (t : result_frame)
        (o : Combined.row) :
  combine_and_format_data prices_df coordinates_df district_df = Ok t ->
  In o t ->
  Combined.medianpredprice_formatted o
  = Python.format_thousands (Combined.medianpredprice o) /\
  remove_commas (Combined.medianpredprice_formatted o)
  = decimal (Combined.medianpredprice o) /\
  Python.int_of_str (remove_commas (Combined.medianpredprice_formatted o))
  = Some (Combined.medianpredprice o).
Proof.
  intros H Ho. apply combine_Ok_inv in H. destruct H as (-> & _ & _).
  apply in_map_iff in Ho. destruct Ho as [j [<- _]].
  cbn [format_row Combined.medianpredprice_formatted
                  Combined.medianpredprice].
  split; [reflexivity|].
  rewrite format_thousands_without_commas. split; [reflexivity|].
  apply int_of_str_decimal.
Qed.

Lemma formatted_price_reads_back_witness :
  Combined.medianpredprice_formatted
    (format_row (Joined.mk Sample.icc Sample.icc_coordinates None))
  = Python.format_thousands 6543210 /\
  remove_commas
    (Combined.medianpredprice_formatted
       (format_row (Joined.mk Sample.icc Sample.icc_coordinates None)))
  = "6543210"%string /\
  Python.int_of_str
    (remove_commas
       (Combined.medianpredprice_formatted
          (format_row (Joined.mk Sample.icc Sample.icc_coordinates None))))
  = Some 6543210.
Proof.
  apply (formatted_price_reads_back
           [Sample.icc] [Sample.icc_coordinates] []
           [format_row (Joined.mk Sample.icc Sample.icc_coordinates None)]
           (format_row (Joined.mk Sample.icc Sample.icc_coordinates None))).
  - vm_compute. reflexivity.
  - simpl. left. reflexivity.
Defined.

Lemma int_of_str_cases (s : string) :
  Python.int_of_str s =
  match Python.strip s with
  | EmptyString => None
  | String a s' =>
      if Ascii.eqb a "-"%char
      then option_map Z.opp (Python.digits s' 0 false)
      else if Ascii.eqb a "+"%char
           then Python.digits s' 0 false
           else Python.digits (String a s') 0 false
  end.
Proof.
  unfold Python.int_of_str. destruct (Python.strip s) as [|a s'];
    [reflexivity|].
  destruct a as [[|] [|] [|] [|] [|] [|] [|] [|]]; reflexivity.
Qed.

Lemma digits_chars (s : string) :
  forall (acc : Z) (b : bool) (z : Z),
    Python.digits s acc b = Some z ->
    forall c, In c (list_ascii_of_string s) -> int_char c = true.
Proof.
  induction s as [|a s IH]; intros acc b z H c Hc; [contradiction|].
  cbn [Python.digits] in H. simpl in Hc.
  destruct (Python.is_digit a) eqn:Ed.
  - destruct Hc as [<- | Hc]; [unfold int_char; now rewrite Ed|].
    now apply (IH _ _ _ H).
  - destruct (Ascii.eqb a "_"%char) eqn:Eu; [|discriminate].
    destruct b; [|discriminate].
    destruct Hc as [<- | Hc].
    + unfold int_char. rewrite Eu. now rewrite !orb_true_r.
    + now apply (IH _ _ _ H).
Qed.

Lemma lstrip_In (s : string) (c : ascii) :
  In c (list_ascii_of_string s) -> Python.is_space c = false ->
  In c (list_ascii_of_string (Python.lstrip s)).
Proof.
  intros Hc Hs. induction s as [|a s IH]; [contradiction|].
  simpl. destruct (Python.is_space a) eqn:Ea.
  - destruct Hc as [-> | Hc]; [congruence | now apply IH].
  - exact Hc.
Qed.

Lemma rstrip_In (s : string) (c : ascii) :
  In c (list_ascii_of_string s) -> Python.is_space c = false ->
  In c (list_ascii_of_string (Python.rstrip s)).
Proof.
  intros Hc Hs. induction s as [|a s IH]; [contradiction|].
  simpl. destruct Hc as [-> | Hc].
  - destruct (Python.rstrip s); [rewrite Hs|]; now left.
  - specialize (IH Hc). destruct (Python.rstrip s) as [|a' r];
      [contradiction|]. now right.
Qed.

Lemma int_of_str_chars (s : string) (z : Z) :
  Python.int_of_str s = Some z ->
  forall c, In c (list_ascii_of_string s) -> int_char c = true.
Proof.
  intros H c Hc. destruct (Python.is_space c) eqn:Es.
  - unfold int_char. rewrite Es. now rewrite orb_true_r.
  - assert (Hin : In c (list_ascii_of_string (Python.strip s)))
      by (unfold Python.strip; apply rstrip_In; [apply lstrip_In|]; trivial).
    rewrite int_of_str_cases in H.
    destruct (Python.strip s) as [|a s']; [discriminate|].
    simpl in Hin.
    destruct (Ascii.eqb a "-"%char) eqn:Em.
    + destruct Hin as [<- | Hin];
        [unfold int_char; rewrite Em; now rewrite !orb_true_r|].
      destruct (Python.digits s' 0 false) as [v|] eqn:Ed; [|discriminate].
      now apply (digits_chars s' 0 false v Ed).
    + destruct (Ascii.eqb a "+"%char) eqn:Ep.
      * destruct Hin as [<- | Hin];
          [unfold int_char; rewrite Ep; now rewrite !orb_true_r|].
        now apply (digits_chars s' 0 false z H).
      * apply (digits_chars (String a s') 0 false z H). exact Hin.
Qed.

(** X17.  A numeric field given as an integer of the 64-bit range, or as
    a string holding the decimal numeral of such an integer, coerces to
    that integer; the numeral of an integer beyond the range, a null field
    and an empty string do not coerce. *)
Theorem numerals_coerce_to_their_integer (z : Z) :
  (Pandas.int64 z = true ->
   Pandas.int_of_cell (VInt z) = Ok z /\
   Pandas.int_of_cell (VStr (decimal z)) = Ok z) /\
  (Pandas.int64 z = false ->
   raises (Pandas.int_of_cell (VStr (decimal z)))) /\
  raises (Pandas.int_of_cell VNull) /\
  raises (Pandas.int_of_cell (VStr "")).
Proof.
  split; [|split; [|split]].
  - intros Hz. unfold Pandas.int_of_cell, Pandas.int64_of_str.
    now rewrite int_of_str_decimal, Hz.
  - intros Hz. unfold Pandas.int_of_cell, Pandas.int64_of_str.
    rewrite int_of_str_decimal, Hz. now exists OverflowError.
  - now exists TypeError.
  - now exists ValueError.
Qed.

Lemma numerals_coerce_to_their_integer_witness :
  Pandas.int_of_cell (VStr "6543210") = Ok 6543210 /\
  raises (Pandas.int_of_cell (VStr "9223372036854775808")).
Proof.
  split.
  - destruct (numerals_coerce_to_their_integer 6543210) as [H _].
    destruct (H eq_refl) as [_ H']. exact H'.
  - destruct (numerals_coerce_to_their_integer (2 ^ 63)) as (_ & H & _).
    exact (H eq_refl).
Defined.

(** X18.  A string field with a character that is no digit, white space,
    underscore or sign (a decimal point, a letter, a thousands comma) does
    not coerce to an integer, so that a price row with such a field, at an
    address that has coordinates, makes [combine_and_format_data] raise. *)
Theorem stray_character_does_not_coerce
        (s : string) (c : ascii) :
  In c (list_ascii_of_string s) ->
  int_char c = false ->
  raises (Pandas.int_of_cell (VStr s)) /\
  forall p, Price.medianpredprice p = VStr s -> uncoercible p.
Proof.
  intros Hc Hi.
  assert (Hr : raises (Pandas.int_of_cell (VStr s))).
  { exists ValueError. unfold Pandas.int_of_cell, Pandas.int64_of_str.
    destruct (Python.int_of_str s) as [z|] eqn:E; [|reflexivity].
    pose proof (int_of_str_chars s z E c Hc). congruence. }
  split; [exact Hr|].
  intros p Hp. left. now rewrite Hp.
Qed.

Lemma stray_character_does_not_coerce_witness :
  raises (Pandas.int_of_cell (VStr "6,543,210.50")).
Proof.
  apply (stray_character_does_not_coerce "6,543,210.50" "."%char).
  - simpl. tauto.
  - reflexivity.
Defined.

(* ------------------------------------------------------------------ *)
(** ** Colours and their fields *)

Lemma split_nonempty (sep : ascii) (s : string) : Python.split sep s <> [].
Proof.
  destruct s as [|c s]; simpl; [discriminate|].
  destruct (Ascii.eqb c sep); [discriminate|].
  destruct (Python.split sep s); discriminate.
Qed.

Lemma concat_cons (sep x : string) (l : list string) :
  l <> [] ->
  String.concat sep (x :: l) = (x ++ sep ++ String.concat sep l)%string.
Proof.
  destruct l; [congruence | reflexivity].
Qed.

(** Joining the fields with the separator gives the string back. *)
Lemma concat_split (sep : ascii) (s : string) :
  String.concat (String sep EmptyString) (Python.split sep s) = s.
Proof.
  induction s as [|c s IH]; [reflexivity|].
  cbn [Python.split]. destruct (Ascii.eqb c sep) eqn:E.
  - apply Ascii.eqb_eq in E. subst c.
    rewrite concat_cons by apply split_nonempty. simpl. now rewrite IH.
  - destruct (Python.split sep s) as [|h t] eqn:Es.
    + exfalso. now apply (split_nonempty sep s).
    + destruct t as [|h' t].
      * simpl in *. now rewrite IH.
      * rewrite concat_cons by discriminate.
        rewrite concat_cons in IH by discriminate.
        rewrite <- IH. reflexivity.
Qed.

Lemma split_fields_without_sep (sep : ascii) (s : string) :
  forall field, In field (Python.split sep s) ->
                ~ In sep (list_ascii_of_string field).
Proof.
  induction s as [|c s IH]; intros field Hf.
  - simpl in Hf. destruct Hf as [<- | []]. intros [].
  - cbn [Python.split] in Hf. destruct (Ascii.eqb c sep) eqn:E.
    + destruct Hf as [<- | Hf]; [intros [] | now apply IH].
    + destruct (Python.split sep s) as [|h t] eqn:Es.
      * destruct Hf as [<- | []]. simpl. intros [-> | []].
        now rewrite Ascii.eqb_refl in E.
      * destruct Hf as [<- | Hf].
        -- simpl. intros [-> | Hin].
           ++ now rewrite Ascii.eqb_refl in E.
           ++ apply (IH h); [now left | assumption].
        -- apply IH. now right.
Qed.

(** X20.  In a table that [combine_and_format_data] returns, the colour of
    a row is its three fields joined by commas, none of which holds a
    comma, and the fields read as [r], [g] and [b]. *)
Theorem colour_is_its_fields_joined
        (prices_df : prices_frame) (coordinates_df : coordinates_frame)
        (district_df : district_frame) (t : result_frame)
        (o : Combined.row) :
  combine_and_format_data prices_df coordinates_df district_df = Ok t ->
  In o t ->
  exists x y z,
    Combined.colour o = VStr (x ++ "," ++ y ++ "," ++ z)%string /\
    ~ In ","%char (list_ascii_of_string x) /\
    ~ In ","%char (list_ascii_of_string y) /\
    ~ In ","%char (list_ascii_of_string z) /\
    Python.int_of_str x = Some (Combined.r o) /\
    Python.int_of_str y = Some (Combined.g o) /\
    Python.int_of_str z = Some (Combined.b o).
Proof.
  intros H Ho. apply combine_Ok_inv in H. destruct H as (-> & _ & HF).
  apply in_map_iff in Ho. destruct Ho as [j [<- Hj]].
  rewrite Forall_forall in HF. specialize (HF j Hj).
  destruct HF as (_ & _ & _ & _ & _ & [rgb Hrgb]).
  unfold format_row. cbn [Combined.colour Combined.r Combined.g Combined.b].
  rewrite Hrgb. unfold channels in Hrgb.
  destruct (Price.colour (Joined.price j)) as [| |f|s]; try discriminate.
  destruct (Python.split ","%char s) as [|x [|y [|z [|z' l]]]] eqn:Es;
    try discriminate.
  destruct (Pandas.int64_of_str x) eqn:Ex; [|discriminate].
  destruct (Pandas.int64_of_str y) eqn:Ey; [|discriminate].
  destruct (Pandas.int64_of_str z) eqn:Ez; [|discriminate].
  apply int64_of_str_Ok in Ex, Ey, Ez.
  destruct Ex as [Ex _], Ey as [Ey _], Ez as [Ez _].
  inversion Hrgb; subst rgb. exists x, y, z.
  pose proof (concat_split ","%char s) as Hjoin. rewrite Es in Hjoin.
  pose proof (split_fields_without_sep ","%char s) as Hsep.
  rewrite Es in Hsep.
  split; [now rewrite <- Hjoin|].
  repeat split;
    first [ apply Hsep; simpl; now auto | simpl; assumption ].
Qed.

Lemma colour_is_its_fields_joined_witness :
  exists x y z,
    Combined.colour
      (format_row (Joined.mk Sample.icc Sample.icc_coordinates None))
    = VStr (x ++ "," ++ y ++ "," ++ z)%string /\
    ~ In ","%char (list_ascii_of_string x) /\
    ~ In ","%char (list_ascii_of_string y) /\
    ~ In ","%char (list_ascii_of_string z) /\
    Python.int_of_str x
    = Some (Combined.r (format_row (Joined.mk Sample.icc
                                              Sample.icc_coordinates None))) /\
    Python.int_of_str y
    = Some (Combined.g (format_row (Joined.mk Sample.icc
                                              Sample.icc_coordinates None))) /\
    Python.int_of_str z
    = Some (Combined.b (format_row (Joined.mk Sample.icc
                                              Sample.icc_coordinates None))).
Proof.
  apply (colour_is_its_fields_joined
           [Sample.icc] [Sample.icc_coordinates] []
           [format_row (Joined.mk Sample.icc Sample.icc_coordinates None)]
           (format_row (Joined.mk Sample.icc Sample.icc_coordinates None))).
  - vm_compute. reflexivity.
  - simpl. left. reflexivity.
Defined.

(** X21.  Every row of a table that [combine_and_format_data] returns is
    made of one price row and one coordinate row with the same address:
    the name, address, region and colour are those of the price row, the
    five numeric fields are the price row's fields coerced to integers and
    [lat] and [lng] are those of the coordinate row. *)
Theorem combined_row_is_one_price_row
        (prices_df : prices_frame) (coordinates_df : coordinates_frame)
        (district_df : district_frame) (t : result_frame)
        (o : Combined.row) :
  combine_and_format_data prices_df coordinates_df district_df = Ok t ->
  In o t ->
  exists p c,
    In p prices_df /\ In c coordinates_df /\
    Coord.index c = Price.buildingaddress p /\
    Combined.buildingname o = Price.buildingname p /\
    Combined.buildingaddress o = Price.buildingaddress p /\
    Combined.region o = Price.region p /\
    Combined.colour o = Price.colour p /\
    Combined.lat o = Coord.lat c /\
    Combined.lng o = Coord.lng c /\
    Pandas.int_of_cell (Price.medianpredprice p)
    = Ok (Combined.medianpredprice o) /\
    Pandas.int_of_cell (Price.transactionscount p)
    = Ok (Combined.transactionscount o) /\
    Pandas.int_of_cell (Price.built p) = Ok (Combined.built o) /\
    Pandas.int_of_cell (Price.numberofunits p)
    = Ok (Combined.numberofunits o) /\
    Pandas.int_of_cell (Price.numberoffloors p)
    = Ok (Combined.numberoffloors o).
Proof.
  intros H Ho. apply combine_Ok_inv in H. destruct H as (-> & _ & HF).
  apply in_map_iff in Ho. destruct Ho as [j [<- Hj]].
  rewrite Forall_forall in HF. specialize (HF j Hj).
  destruct HF as ([z1 E1] & [z2 E2] & [z3 E3] & [z4 E4] & [z5 E5] & _).
  apply joined_frame_In in Hj. destruct Hj as (Hp & Hc & Hk & _).
  exists (Joined.price j), (Joined.coord j).
  unfold format_row.
  cbn [Combined.buildingname Combined.buildingaddress Combined.region
       Combined.colour Combined.lat Combined.lng Combined.medianpredprice
       Combined.transactionscount Combined.built Combined.numberofunits
       Combined.numberoffloors].
  rewrite E1, E2, E3, E4, E5. cbn [force].
  repeat split; assumption || reflexivity.
Qed.

Lemma combined_row_is_one_price_row_witness :
  exists p c,
    In p [Sample.icc; Sample.unknown] /\ In c [Sample.icc_coordinates] /\
    Coord.index c = Price.buildingaddress p /\
    Combined.buildingname
      (format_row (Joined.mk Sample.icc Sample.icc_coordinates None))
    = Price.buildingname p /\
    Combined.buildingaddress
      (format_row (Joined.mk Sample.icc Sample.icc_coordinates None))
    = Price.buildingaddress p /\
    Combined.region
      (format_row (Joined.mk Sample.icc Sample.icc_coordinates None))
    = Price.region p /\
    Combined.colour
      (format_row (Joined.mk Sample.icc Sample.icc_coordinates None))
    = Price.colour p /\
    Combined.lat
      (format_row (Joined.mk Sample.icc Sample.icc_coordinates None))
    = Coord.lat c /\
    Combined.lng
      (format_row (Joined.mk Sample.icc Sample.icc_coordinates None))
    = Coord.lng c /\
    Pandas.int_of_cell (Price.medianpredprice p)
    = Ok (Combined.medianpredprice
            (format_row (Joined.mk Sample.icc Sample.icc_coordinates None))) /\
    Pandas.int_of_cell (Price.transactionscount p)
    = Ok (Combined.transactionscount
            (format_row (Joined.mk Sample.icc Sample.icc_coordinates None))) /\
    Pandas.int_of_cell (Price.built p)
    = Ok (Combined.built
            (format_row (Joined.mk Sample.icc Sample.icc_coordinates None))) /\
    Pandas.int_of_cell (Price.numberofunits p)
    = Ok (Combined.numberofunits
            (format_row (Joined.mk Sample.icc Sample.icc_coordinates None))) /\
    Pandas.int_of_cell (Price.numberoffloors p)
    = Ok (Combined.numberoffloors
            (format_row (Joined.mk Sample.icc Sample.icc_coordinates None))).
Proof.
  apply (combined_row_is_one_price_row
           [Sample.icc; Sample.unknown] [Sample.icc_coordinates] []
           [format_row (Joined.mk Sample.icc Sample.icc_coordinates None)]
           (format_row (Joined.mk Sample.icc Sample.icc_coordinates None))).
  - vm_compute. reflexivity.
  - simpl. left. reflexivity.
Defined.

(* ------------------------------------------------------------------ *)
(** ** A run without the district file *)

(** X22.  The district file is read only after the prices are collected
    and the addresses geocoded: when it is missing, the collected price
    table has a row and the returned coordinate table has unique labels,
    [main] raises [FileNotFoundError], yet the price file and the
    coordinate file are already written and the queries are made; nothing
    is rendered. *)
Theorem missing_district_file_aborts_after_caching
        (session_get : string -> response)
        (hk11_links : string -> result (list string))
        (next_data : string -> result pageProps)
        (gmaps_geocode : string -> list (float * float))
        (w : world) (prices_df : prices_frame) :
  districts_json w = None ->
  fst (get_prices session_get hk11_links next_data w) = Ok prices_df ->
  prices_df <> [] ->
  Pandas.is_unique
    (keys (coordinates_after gmaps_geocode (loaded_coordinates w)
                             (map Price.buildingaddress prices_df))) = true ->
  exists w',
    main session_get hk11_links next_data gmaps_geocode w
    = (Raise FileNotFoundError, w') /\
    prices_json w' = Some prices_df /\
    coordinates_json w'
    = Some (coordinates_after gmaps_geocode (loaded_coordinates w)
                              (map Price.buildingaddress prices_df)) /\
    district_html w' = district_html w /\
    outputs w'
    = outputs w ++
      [PricesJson prices_df;
       CoordinatesJson
         (coordinates_after gmaps_geocode (loaded_coordinates w)
                            (map Price.buildingaddress prices_df))] /\
    forall a, In a (map Price.buildingaddress prices_df) ->
              ~ In a (keys (loaded_coordinates w)) ->
              In (Geocode a) (network w').
Proof.
  intros Hd Hp Hne Hu.
  destruct (get_prices_logs session_get hk11_links next_data w)
    as [urls [Elog _]].
  destruct (get_prices session_get hk11_links next_data w)
    as [[p|e] w1] eqn:Hg; cbn [fst snd] in *; [|discriminate].
  inversion Hp; subst p; clear Hp. subst w1.
  rewrite (main_run _ _ _ gmaps_geocode w _ prices_df Hg).
  destruct prices_df as [|p0 prices]; [congruence|].
  cbv zeta.
  change (loaded_coordinates (log_all (map HttpGet urls) w))
    with (loaded_coordinates w).
  change (districts_json (log_all (map HttpGet urls) w))
    with (districts_json w).
  rewrite Hu, Hd. eexists. split; [reflexivity|].
  split; [reflexivity|]. split; [reflexivity|]. split; [reflexivity|].
  split.
  { cbn [outputs write_coordinates log_all write_prices].
    now rewrite <- app_assoc. }
  intros a Ha Hk. cbn [network write_coordinates log_all write_prices].
  apply in_or_app. right. apply in_map.
  apply buildings_to_get_In. now split.
Qed.

Lemma missing_district_file_aborts_after_caching_witness :
  exists w',
    main Sample.session_get Sample.hk11_links Sample.next_data
         Sample.gmaps_geocode without_districts
    = (Raise FileNotFoundError, w') /\
    prices_json w' = Some [Sample.icc] /\
    coordinates_json w'
    = Some (coordinates_after Sample.gmaps_geocode
                              (loaded_coordinates without_districts)
                              (map Price.buildingaddress [Sample.icc])) /\
    district_html w' = district_html without_districts /\
    outputs w'
    = outputs without_districts ++
      [PricesJson [Sample.icc];
       CoordinatesJson
         (coordinates_after Sample.gmaps_geocode
                            (loaded_coordinates without_districts)
                            (map Price.buildingaddress [Sample.icc]))] /\
    forall a, In a (map Price.buildingaddress [Sample.icc]) ->
              ~ In a (keys (loaded_coordinates without_districts)) ->
              In (Geocode a) (network w').
Proof.
  apply (missing_district_file_aborts_after_caching
           Sample.session_get Sample.hk11_links Sample.next_data
           Sample.gmaps_geocode without_districts [Sample.icc]).
  - reflexivity.
  - reflexivity.
  - discriminate.
  - vm_compute. reflexivity.
Defined.
